(** * langkit.gdb.commands: the [state] and [break] debugger commands

    A shallow embedding of [langkit/gdb/commands.py].  Python text is a
    [string] of bytes, Python integers are [Z], [None]-able values are
    [option]s, and the effects of a command (lines printed, the prompt, the
    breakpoints created in the host debugger, a Python exception leaving the
    command) are threaded through a small state-and-exception monad. *)

From Stdlib Require Import String Ascii List ZArith Lia Bool Arith DecimalString.
From Stdlib Require DecimalFacts DecimalPos.
Import ListNotations.
Open Scope string_scope.
Open Scope list_scope.

Set Implicit Arguments.

(** ** The Python built-ins the commands rely on *)

Module Py.

(** [str.isspace] on one byte (C locale): space, and the controls 9..13. *)
Definition isspace (c : ascii) : bool :=
  let n := nat_of_ascii c in
  (n =? 32)%nat || ((9 <=? n)%nat && (n <=? 13)%nat).

(** [str.lower] on one byte: only [A]..[Z] move. *)
Definition lower_char (c : ascii) : ascii :=
  let n := nat_of_ascii c in
  if (65 <=? n)%nat && (n <=? 90)%nat then ascii_of_nat (n + 32) else c.

Fixpoint lower (s : string) : string :=
  match s with
  | EmptyString => EmptyString
  | String c s' => String (lower_char c) (lower s')
  end.

(** [c in s] for a one-character [c]. *)
Fixpoint contains (c : ascii) (s : string) : bool :=
  match s with
  | EmptyString => false
  | String d s' => Ascii.eqb c d || contains c s'
  end.

Fixpoint lstrip (s : string) : string :=
  match s with
  | EmptyString => EmptyString
  | String c s' => if isspace c then lstrip s' else s
  end.

Fixpoint rstrip (s : string) : string :=
  match s with
  | EmptyString => EmptyString
  | String c s' =>
      match rstrip s' with
      | EmptyString => if isspace c then EmptyString else String c EmptyString
      | r => String c r
      end
  end.

Definition strip (s : string) : string := rstrip (lstrip s).

(** The longest prefix without white space, and what follows it. *)
Fixpoint span_word (s : string) : string * string :=
  match s with
  | EmptyString => (EmptyString, EmptyString)
  | String c s' =>
      if isspace c then (EmptyString, s)
      else let (w, r) := span_word s' in (String c w, r)
  end.

(** [s.split(None, maxcount)]: at most [maxcount] words are cut off the
    front; what is left after them, less its leading white space, is the
    last item when it is not empty. *)
Fixpoint split_whitespace (maxcount : nat) (s : string) : list string :=
  match maxcount with
  | O =>
      match lstrip s with
      | EmptyString => []
      | r => [r]
      end
  | S k =>
      match lstrip s with
      | EmptyString => []
      | r => let (w, r') := span_word r in w :: split_whitespace k r'
      end
  end.

(** [s.split()]: no bound on the number of cuts.  A cut consumes at least
    one character, so [length s] cuts are as good as any larger bound
    (lemma [split_whitespace_enough] below). *)
Definition split (s : string) : list string :=
  split_whitespace (String.length s) s.

Definition startswith (p s : string) : bool := String.prefix p s.

(** [s[1:]] *)
Definition tail (s : string) : string :=
  match s with
  | EmptyString => EmptyString
  | String _ s' => s'
  end.

(** [s[:n]] for a non-negative [n]. *)
Definition take (n : nat) (s : string) : string := String.substring 0 n s.

Fixpoint spaces (n : nat) : string :=
  match n with
  | O => EmptyString
  | S k => String " " (spaces k)
  end.

(** [s.rjust(width)] *)
Definition rjust (width : nat) (s : string) : string :=
  (spaces (width - String.length s) ++ s)%string.

(** [str(i)] for an integer. *)
Definition str_int (i : Z) : string := NilZero.string_of_int (Z.to_int i).

(** The text of a format string whose pieces are [items], in order. *)
Definition format (items : list string) : string :=
  String.concat EmptyString items.

(** [sep.join(items)] *)
Definition join (sep : string) (items : list string) : string :=
  String.concat sep items.

Definition digit_value (c : ascii) : option Z :=
  let n := nat_of_ascii c in
  if (48 <=? n)%nat && (n <=? 57)%nat then Some (Z.of_nat (n - 48)) else None.

Fixpoint digits (acc : Z) (s : string) : option Z :=
  match s with
  | EmptyString => Some acc
  | String c s' =>
      match digit_value c with
      | Some d => digits (10 * acc + d) s'
      | None => None
      end
  end.

Definition unsigned_literal (s : string) : option Z :=
  match s with
  | EmptyString => None
  | _ => digits 0 s
  end.

(** [int(s)] in base ten: surrounding white space is dropped, one sign is
    allowed, at least one digit must follow.  [None] stands for
    [ValueError]. *)
Definition int (s : string) : option Z :=
  match strip s with
  | String "-" r => option_map Z.opp (unsigned_literal r)
  | String "+" r => unsigned_literal r
  | r => unsigned_literal r
  end.

(** [l[i]] on a list: a negative index counts from the end, an index
    outside the list is [IndexError] ([None]). *)
Definition index {A} (l : list A) (i : Z) : option A :=
  let n := Z.of_nat (List.length l) in
  let j := if (i <? 0)%Z then (i + n)%Z else i in
  if (j <? 0)%Z || (n <=? j)%Z then None else nth_error l (Z.to_nat j).

(** [set(s)]: the distinct characters of [s].  The order in which Python
    iterates over a set is not specified; here it is the order of first
    occurrence, and nothing below depends on it. *)
Fixpoint char_set (s : string) : list ascii :=
  match s with
  | EmptyString => []
  | String c s' =>
      c :: filter (fun d => negb (Ascii.eqb c d)) (char_set s')
  end.

Definition mem (c : ascii) (l : list ascii) : bool :=
  existsb (Ascii.eqb c) l.

(** [flags.difference(s)] *)
Definition difference (l : list ascii) (s : string) : list ascii :=
  filter (fun c => negb (contains c s)) l.

End Py.

(** ** Effects of a command

    A command prints lines, may prompt for one line of input, may create
    breakpoints in the host debugger, and either returns or lets a Python
    exception escape. *)

Inductive output :=
| Line (s : string)      (* print(s) *)
| Prompt (s : string).   (* the prompt of raw_input(s) *)

(** A breakpoint of the host debugger: gdb.Breakpoint(spec), and its
    [condition] attribute. *)
Record Breakpoint := mkBreakpoint {
  spec : string;
  condition : option string
}.

Record World := mkWorld {
  stdout : list output;
  stdin : list string;            (* lines to be read; [] is end of input *)
  breakpoints : list Breakpoint   (* in creation order *)
}.

(** The exceptions that nothing in the module catches. *)
Inductive exn :=
| AttributeError (msg : string)
| IndexError (msg : string).

Inductive outcome (A : Type) :=
| Returned (a : A)
| Raised (e : exn).
Arguments Returned {A} a.
Arguments Raised {A} e.

Definition Cmd (A : Type) : Type := World -> outcome A * World.

Definition ret {A} (a : A) : Cmd A := fun w => (Returned a, w).

Definition bind {A B} (c : Cmd A) (k : A -> Cmd B) : Cmd B :=
  fun w =>
    match c w with
    | (Returned a, w') => k a w'
    | (Raised e, w') => (Raised e, w')
    end.

Definition raise {A} (e : exn) : Cmd A := fun w => (Raised e, w).

Declare Scope cmd_scope.
Delimit Scope cmd_scope with cmd.
Notation "x <- c ;; k" := (bind c (fun x => k))
  (at level 61, c at next level, right associativity) : cmd_scope.
Notation "c ;; k" := (bind c (fun _ => k))
  (at level 61, right associativity) : cmd_scope.
Open Scope cmd_scope.

Definition emit (o : output) : Cmd unit :=
  fun w => (Returned tt,
            mkWorld (stdout w ++ [o]) (stdin w) (breakpoints w)).

Definition print (s : string) : Cmd unit := emit (Line s).

(** gdb.Breakpoint(spec): the new breakpoint is registered with the host
    and its handle (its position in the host's list) is returned. *)
Definition gdb_Breakpoint (s : string) : Cmd nat :=
  fun w => (Returned (List.length (breakpoints w)),
            mkWorld (stdout w) (stdin w)
                    (breakpoints w ++ [mkBreakpoint s None])).

Fixpoint set_condition (l : list Breakpoint) (h : nat) (c : string)
  : list Breakpoint :=
  match l, h with
  | [], _ => []
  | b :: r, O => mkBreakpoint (spec b) (Some c) :: r
  | b :: r, S h' => b :: set_condition r h' c
  end.

(** What one read of a line gives: the line, or EOFError. *)
Inductive input_result :=
| InputLine (s : string)
| EOFError.

(** [get_input(prompt)]: shows the prompt and reads one line. *)
Definition get_input (prompt : string) : Cmd input_result :=
  fun w =>
    let out := stdout w ++ [Prompt prompt] in
    match stdin w with
    | [] => (Returned EOFError, mkWorld out [] (breakpoints w))
    | l :: rest => (Returned (InputLine l), mkWorld out rest (breakpoints w))
    end.

(** ** The debug information and the decoded state

    [langkit.gdb.debug_info] and [langkit.gdb.utils] are consumed through the
    attributes and functions that the commands use. *)

(** [DSLLocation]: a location in the specification sources. *)
Class DSLLocationAPI := {
  DSLLocation : Type;
  DSLLocation_parse : string -> DSLLocation;
  DSLLocation_matches : DSLLocation -> DSLLocation -> bool;
  DSLLocation_str : DSLLocation -> string
}.

Section DebugInfo.
Context {L : DSLLocationAPI}.

(** An [ExprStart] event. *)
Record ExprStart := mkExprStart {
  es_dsl_sloc : option DSLLocation;
  es_line_no : Z
}.

(** The events of a scope: a nested [Scope], an [ExprStart], or an event
    of another class. *)
#[warnings="-register-all"] Inductive Event :=
| EvScope (events : list Event)
| EvExprStart (e : ExprStart)
| EvOther.

(** A [Property] is itself the outermost [Scope] of its body. *)
Record Property := mkProperty {
  name : string;
  dsl_sloc : option DSLLocation;
  body_start : option Z;
  events : list Event
}.

Record DebugInfo := mkDebugInfo {
  filename : string;
  properties : list Property
}.

Record Binding := mkBinding {
  dsl_name : string;
  gen_name : string
}.

(** An expression of the running property, as [sorted_expressions]
    returns it. *)
Record Expression := mkExpression {
  result_var : string;
  expr_dsl_sloc : option DSLLocation
}.

(** A [ScopeState]; [sorted_expressions] holds what the method of that
    name returns: the finished expressions in completion order and the
    expression being evaluated, if any. *)
Record ScopeState := mkScopeState {
  bindings : list Binding;
  sorted_expressions : list Expression * option Expression
}.

Record State := mkState {
  property : Property;
  in_memoization_lookup : bool;
  scopes : list ScopeState
}.

(** The debugging context: the debug information, and what
    [decode_state] gives for the selected frame. *)
Record Context := mkContext {
  debug_info : DebugInfo;
  decode_state : option State
}.
End DebugInfo.

(** [langkit.gdb.utils]: the images of names, expressions and properties. *)
Class Utils {L : DSLLocationAPI} := {
  name_repr : Binding -> string;
  expr_repr : Expression -> string;
  prop_repr : Property -> string
}.

(** The host debugger: [frame_read_var n] is the text of
    [str(frame.read_var(n))] in the selected frame, and [condition_error c]
    is the message of the [gdb.error] raised when [c] is attached to a
    breakpoint as its condition, if the host refuses it. *)
Class Gdb := {
  frame_read_var : string -> string;
  condition_error : string -> option string
}.

(** ** StatePrinter *)

Module StatePrinter.
Section WithHost.
Context {L : DSLLocationAPI} {U : Utils} {G : Gdb}.

Definition ellipsis_limit : nat := 50.

(** The attributes set by [__init__]; [sio] is threaded through the
    methods as the list of the lines written to it so far. *)
Record t := mk {
  state : option State;
  with_ellipsis : bool;
  with_locs : bool;
  var_name : option string
}.

(** [StatePrinter(context, with_ellipsis, with_locs, var_name)] *)
Definition init (context : Context) (with_ellipsis with_locs : bool)
           (var_name : option string) : t :=
  mk (decode_state context) with_ellipsis with_locs var_name.

(** [print(s, file=self.sio)] *)
Definition prn (s : string) (sio : list string) : list string :=
  sio ++ [s].

(** [self.sio.getvalue()]: every line written, with its end of line. *)
Definition getvalue (sio : list string) : string :=
  String.concat "" (map (fun l => (l ++ String "010" "")%string) sio).

Definition loc_image (self : t) (var_name : string) : string :=
  if with_locs self then Py.format [" ("; var_name; ")"] else "".

Definition value_image (self : t) (var_name : string) : string :=
  let value := frame_read_var (Py.lower var_name) in
  if with_ellipsis self && (ellipsis_limit <? String.length value)%nat
  then Py.format [Py.take ellipsis_limit value; "..."]
  else value.

Section Render.
Variable self : t.

(** The text that [print_binding] hands to its [print_fn]. *)
Definition binding_image (b : Binding) : string :=
  Py.format [name_repr b; loc_image self (gen_name b); " = ";
             value_image self (gen_name b)].

Definition print_binding {S} (print_fn : string -> S -> S) (b : Binding)
  : S -> S :=
  print_fn (binding_image b).

(** The two nested loops of the variable filter: the first binding
    called [v], scopes in order and bindings in order inside each. *)
Fixpoint lookup_in_bindings (v : string) (bs : list Binding)
  : option Binding :=
  match bs with
  | [] => None
  | b :: bs' => if (dsl_name b =? v)%string then Some b
                else lookup_in_bindings v bs'
  end.

Fixpoint lookup_in_scopes (v : string) (scs : list ScopeState)
  : option Binding :=
  match scs with
  | [] => None
  | sc :: scs' =>
      match lookup_in_bindings v (bindings sc) with
      | Some b => Some b
      | None => lookup_in_scopes v scs'
      end
  end.

(** [print_info]: the state is the [is_first] cell and [sio]. *)
Definition print_info (strn : string) (st : bool * list string)
  : bool * list string :=
  let (is_first, sio) := st in
  if is_first then (false, prn strn (prn "" sio))
  else (is_first, prn strn sio).

Definition expr_image (e : Expression) : string :=
  Py.format [expr_repr e; loc_image self (result_var e); " -> ";
             value_image self (result_var e)].

(** One turn of the loop over [self.state.scopes]. *)
Definition render_scope (sio : list string) (scope_state : ScopeState)
  : list string :=
  let st := (true, sio) in
  let st := fold_left (fun st b => print_binding print_info b st)
                      (bindings scope_state) st in
  let (done_exprs, last_started) := sorted_expressions scope_state in
  let st := fold_left (fun st e => print_info (expr_image e) st)
                      done_exprs st in
  let st :=
    match last_started with
    | Some l =>
        let st := print_info
                    (Py.format ["Currently evaluating "; expr_repr l])
                    st in
        match expr_dsl_sloc l with
        | Some loc =>
            print_info (Py.format ["from "; DSLLocation_str loc]) st
        | None => st
        end
    | None => st
    end in
  snd st.

(** [if self.var_name:] *)
Definition filter_name : option string :=
  match var_name self with
  | Some EmptyString => None
  | v => v
  end.

Definition _render (sio : list string) : list string :=
  match state self with
  | None => prn "Selected frame is not in a property." sio
  | Some st =>
      match filter_name with
      | Some v =>
          match lookup_in_scopes v (scopes st) with
          | Some b => print_binding prn b sio
          | None => prn (Py.format ["No binding called "; v]) sio
          end
      | None =>
          let sio :=
            prn (Py.format ["Running "; prop_repr (property st)]) sio in
          let sio :=
            match dsl_sloc (property st) with
            | Some loc => prn (Py.format ["from "; DSLLocation_str loc]) sio
            | None => sio
            end in
          let sio :=
            if in_memoization_lookup st
            then prn "About to return a memoized result..." sio
            else sio in
          fold_left render_scope (scopes st) sio
      end
  end.

(** [run] on a printer whose buffer holds [sio]: the rendering is added
    to the buffer, which is never emptied, and all that the buffer holds
    is printed; the buffer as it is afterwards is returned. *)
Definition run_with (sio : list string) : Cmd (list string) :=
  let sio := _render sio in
  print (getvalue sio) ;; ret sio.

(** [run] on a printer fresh from [init], whose buffer is empty: this is
    how the [state] command uses it. *)
Definition run : Cmd unit :=
  print (getvalue (_render [])).
End Render.
End WithHost.

(** [langkit.utils.no_colors]: inside [with no_colors():] the images of
    names, expressions and properties are those without colours. *)
Class NoColors {L : DSLLocationAPI} := {
  no_colors : Utils
}.

(** [render] on a printer whose buffer holds [sio]: the rendering is added
    to the buffer with the colours disabled, and all that the buffer holds
    is returned, with the buffer as it is afterwards. *)
Definition render {L : DSLLocationAPI} {N : NoColors} {G : Gdb}
           (self : t) (sio : list string) : string * list string :=
  let sio := _render (U := no_colors) self sio in
  (getvalue sio, sio).
End StatePrinter.

(** ** StateCommand *)

Module StateCommand.
Section WithHost.
Context {L : DSLLocationAPI} {U : Utils} {G : Gdb}.
Variable context : Context.

(** [if args: var_name = args.pop(0)] *)
Definition pop_var_name (args : list string)
  : option string * list string :=
  match args with
  | a :: rest => (Some a, rest)
  | [] => (None, args)
  end.

(** [if args: print('Invalid extra arguments: ...')]; no [return]
    follows the message. *)
Definition report_extra (args : list string) : Cmd unit :=
  match args with
  | [] => ret tt
  | _ => print (Py.format ["Invalid extra arguments: "; Py.join " " args])
  end.

(** The printer that the command builds from its flags. *)
Definition printer (flags : list ascii) (var_name : option string)
  : StatePrinter.t :=
  StatePrinter.init context
                    (negb (Py.mem "f" flags))
                    (Py.mem "s" flags)
                    var_name.

(** What follows the parsing of the flags. *)
Definition after_flags (args : list string) (flags : list ascii)
  : Cmd unit :=
  let (var_name, args) := pop_var_name args in
  report_extra args ;;
  StatePrinter.run (printer flags var_name).

Definition invoke (arg : string) : Cmd unit :=
  let args := Py.split arg in
  match args with
  | a0 :: rest =>
      if Py.startswith "/" a0 then
        let flags := Py.char_set (Py.tail a0) in
        let invalid_flags := Py.difference flags "sf" in
        match invalid_flags with
        | [] => after_flags rest flags
        | _ =>
            print (Py.format
                     ["Invalid flags: ";
                      Py.join ", "
                        (map (fun c => String c "") invalid_flags)])
        end
      else after_flags args []
  | [] => after_flags args []
  end.
End WithHost.
End StateCommand.

(** ** BreakCommand *)

Module BreakCommand.
Section WithHost.
Context {L : DSLLocationAPI} {G : Gdb}.
Variable context : Context.

(** The named tuple [Match]. *)
Record Match := mkMatch {
  prop : Property;
  m_dsl_sloc : DSLLocation;
  line_no : Z
}.

Definition dquote : string := String "034" "".

(** [bp.condition = cond] on a breakpoint of the host: the host may
    refuse the expression with [gdb.error], whose message is returned. *)
Definition set_bp_condition (h : nat) (cond : string)
  : Cmd (option string) :=
  fun w =>
    match condition_error cond with
    | Some msg => (Returned (Some msg), w)
    | None => (Returned None,
               mkWorld (stdout w) (stdin w)
                       (set_condition (breakpoints w) h cond))
    end.

(** The first property whose lower-cased name is [lower_prop]: the
    [for ... else] loop of [break_on_property]. *)
Fixpoint find_property (lower_prop : string) (props : list Property)
  : option Property :=
  match props with
  | [] => None
  | p :: props' =>
      if (Py.lower (name p) =? lower_prop)%string then Some p
      else find_property lower_prop props'
  end.

Definition break_on_property (qualname : string) : Cmd (option nat) :=
  let lower_prop := Py.lower qualname in
  match find_property lower_prop (properties (debug_info context)) with
  | None =>
      print (Py.format ["No such property: "; qualname]) ;; ret None
  | Some p =>
      match body_start p with
      | None =>
          print (Py.format ["Cannot break on "; name p;
                            ": it has no code"]) ;;
          ret None
      | Some start =>
          bp <- gdb_Breakpoint
                  (Py.format [filename (debug_info context); ":";
                              Py.str_int start]) ;;
          ret (Some bp)
      end
  end.

(** [process_scope]: [matches] is the list the closure appends to. *)
Fixpoint process_event (p : Property) (dsl_sloc : DSLLocation) (e : Event)
         (matches : list Match) : list Match :=
  match e with
  | EvScope evs =>
      fold_left (fun acc e' => process_event p dsl_sloc e' acc) evs matches
  | EvExprStart es =>
      match es_dsl_sloc es with
      | Some loc =>
          if DSLLocation_matches loc dsl_sloc
          then matches ++ [mkMatch p loc (es_line_no es)]
          else matches
      | None => matches
      end
  | EvOther => matches
  end.

Definition process_scope (p : Property) (dsl_sloc : DSLLocation)
           (evs : list Event) (matches : list Match) : list Match :=
  fold_left (fun acc e => process_event p dsl_sloc e acc) evs matches.

Definition collect_matches (dsl_sloc : DSLLocation) : list Match :=
  fold_left (fun acc p => process_scope p dsl_sloc (events p) acc)
            (properties (debug_info context)) [].

Definition idx_fmt (i : Z) : string := Py.format ["["; Py.str_int i; "] "].

(** The two lines printed for the match numbered [i]. *)
Definition print_match (idx_width : nat) (i : Z) (m : Match) : Cmd unit :=
  print (Py.format [Py.rjust idx_width (idx_fmt i); "In "; name (prop m);
                    ", "; DSLLocation_str (m_dsl_sloc m)]) ;;
  print (Py.format [Py.spaces idx_width; "at ";
                    filename (debug_info context); ":";
                    Py.str_int (line_no m)]).

(** [for i, m in enumerate(matches, 1)], from the index [i] on. *)
Fixpoint print_matches (idx_width : nat) (i : Z) (ms : list Match)
  : Cmd unit :=
  match ms with
  | [] => ret tt
  | m :: ms' =>
      print_match idx_width i m ;; print_matches idx_width (i + 1) ms'
  end.

(** The last statement: the breakpoint on the line of [m]. *)
Definition break_on_match (m : Match) : Cmd (option nat) :=
  bp <- gdb_Breakpoint
          (Py.format [filename (debug_info context); ":";
                      Py.str_int (line_no m)]) ;;
  ret (Some bp).

(** [m = matches[choice]], then the breakpoint. *)
Definition select (matches : list Match) (choice : Z) : Cmd (option nat) :=
  match Py.index matches choice with
  | Some m => break_on_match m
  | None => raise (IndexError "list index out of range")
  end.

Definition break_on_dsl_sloc (dsl_sloc : string) : Cmd (option nat) :=
  let dsl_sloc := DSLLocation_parse dsl_sloc in
  let matches := collect_matches dsl_sloc in
  match matches with
  | [] =>
      print (Py.format ["No match for "; DSLLocation_str dsl_sloc]) ;;
      ret None
  | [m] => break_on_match m
  | _ =>
      let n := Z.of_nat (List.length matches) in
      print (Py.format ["Multiple matches for ";
                        DSLLocation_str dsl_sloc; ":"]) ;;
      let idx_width := String.length (idx_fmt n) in
      print_matches idx_width 1 matches ;;
      print "Please chose one of the above locations [default=1]:" ;;
      r <- get_input "> " ;;
      match r with
      | EOFError => print "Aborting: no breakpoint created" ;; ret None
      | InputLine EmptyString => select matches 1
      | InputLine choice =>
          match Py.int choice with
          | None =>
              print (Py.format ["Invalid index choice: "; choice]) ;;
              ret None
          | Some c =>
              if (c <? 1)%Z || (n <? c)%Z then
                print (Py.format ["Choice must be in range ";
                                  Py.str_int 1; "-"; Py.str_int n]) ;;
                ret None
              else select matches c
          end
      end
  end.

(** [complete(text, word)]: the names of the properties that start with
    [word], letter case apart; the special properties, whose names start
    with a bracket, are kept only when [word] itself starts with one. *)
Definition complete (text word : string) : list string :=
  let prefix := Py.lower word in
  let result :=
    map name
        (filter (fun p => Py.startswith prefix (Py.lower (name p)))
                (properties (debug_info context))) in
  if negb (Py.startswith "[" prefix)
  then filter (fun n => negb (Py.startswith "[" n)) result
  else result.

(** What [invoke] does once [spec] and [cond] are known. *)
Definition break_at (spec : string) (cond : option string) : Cmd unit :=
  bp <- (if Py.contains ":" spec then break_on_dsl_sloc spec
         else break_on_property spec) ;;
  match cond with
  | None | Some EmptyString => ret tt
  | Some c =>
      match bp with
      | None =>
          raise (AttributeError
                   "'NoneType' object has no attribute 'condition'")
      | Some h =>
          err <- set_bp_condition h c ;;
          match err with
          | Some msg => print msg
          | None => ret tt
          end
      end
  end.

(** [arg.strip().split(None, 2)] *)
Definition argv_of (arg : string) : list string :=
  Py.split_whitespace 2 (Py.strip arg).

Definition invoke (arg : string) : Cmd unit :=
  match argv_of arg with
  | [] => print "Breakpoint specification missing"
  | [spec] => break_at spec None
  | [spec; if_kwd; cond] =>
      if negb (if_kwd =? "if")%string then
        print (Py.format ["Invalid arguments (second arg should be ";
                          dquote; "if"; dquote; ")"])
      else break_at spec (Some cond)
  | _ => print "Invalid number of arguments"
  end.
End WithHost.
End BreakCommand.

(** ** An in-memory host and a small debug information

    Concrete collaborators on which the commands can be run: locations are
    a file name and a line, written [file:line]; two locations match when
    they are equal. *)

Module Fake.

Fixpoint before_colon (s : string) : string :=
  match s with
  | EmptyString => EmptyString
  | String c s' => if Ascii.eqb c ":" then EmptyString
                   else String c (before_colon s')
  end.

Fixpoint after_colon (s : string) : string :=
  match s with
  | EmptyString => EmptyString
  | String c s' => if Ascii.eqb c ":" then s' else after_colon s'
  end.

Definition loc_parse (s : string) : string * Z :=
  (before_colon s,
   match Py.int (after_colon s) with Some n => n | None => 0%Z end).

Definition loc_matches (a b : string * Z) : bool :=
  (fst a =? fst b)%string && (snd a =? snd b)%Z.

Definition loc_str (a : string * Z) : string :=
  Py.format [fst a; ":"; Py.str_int (snd a)].

#[export] Instance locations : DSLLocationAPI := {
  DSLLocation := string * Z;
  DSLLocation_parse := loc_parse;
  DSLLocation_matches := loc_matches;
  DSLLocation_str := loc_str
}.

#[export] Instance utils : Utils := {
  name_repr := fun b => dsl_name b;
  expr_repr := fun e => Py.format ["<Expr "; result_var e; ">"];
  prop_repr := fun p => name p
}.

Definition long_value : string :=
  "0123456789012345678901234567890123456789012345678901234567890123456789".

(** The variables of the selected frame, by their lower-case names. *)
Definition read_var (n : string) : string :=
  if (n =? "x_1")%string then "1"
  else if (n =? "y_2")%string then long_value
  else if (n =? "x_3")%string then "3"
  else if (n =? "r_4")%string then "2"
  else "<unknown>".

(** The host accepts every condition but [bogus(]. *)
#[export] Instance gdb : Gdb := {
  frame_read_var := read_var;
  condition_error := fun c =>
    if (c =? "bogus(")%string then Some "A syntax error in expression."
    else None
}.

Definition at_line (l : Z) (line : Z) : Event :=
  EvExprStart (mkExprStart (Some ("spec.py", l)) line).

Definition p1 : Property :=
  mkProperty "Foo.p_one" (Some ("spec.py", 8%Z)) (Some 90%Z)
    [at_line 10 100; EvScope [EvOther; at_line 10 200; at_line 30 250]].

Definition p2 : Property :=
  mkProperty "Bar.p_two" None (Some 290%Z)
    [EvExprStart (mkExprStart None 295); at_line 10 300; at_line 20 400].

Definition p3 : Property :=
  mkProperty "Baz.p_abstract" None None [].

Definition info : DebugInfo := mkDebugInfo "foo-impl.adb" [p1; p2; p3].

Definition x_outer : Binding := mkBinding "x" "X_1".
Definition y_outer : Binding := mkBinding "y" "Y_2".
Definition x_inner : Binding := mkBinding "x" "X_3".

Definition outer : ScopeState :=
  mkScopeState [x_outer; y_outer]
    ([mkExpression "R_4" None],
     Some (mkExpression "R_5" (Some ("spec.py", 10%Z)))).

Definition middle : ScopeState := mkScopeState [] ([], None).

Definition inner : ScopeState := mkScopeState [x_inner] ([], None).

Definition st : State := mkState p1 false [outer; middle; inner].

Definition context : Context := mkContext info (Some st).

Definition world (input : list string) : World := mkWorld [] input [].

(** The printers of [state] and of [state x]. *)
Definition printer : StatePrinter.t :=
  StatePrinter.init context true false None.

Definition printer_x : StatePrinter.t :=
  StatePrinter.init context true false (Some "x").

(** The breakpoint on a line of the generated file. *)
Definition bp (line : string) : Breakpoint :=
  mkBreakpoint ("foo-impl.adb:" ++ line)%string None.

(** What Python raises when [None] is given a condition. *)
Definition no_condition_attribute : exn :=
  AttributeError "'NoneType' object has no attribute 'condition'".

End Fake.

(** ** The rendering order, in the words of the specification

    The unfiltered text is a header, then one group of lines per scope
    state; a group that has lines is preceded by a blank line. *)

Module Spec.
Section WithHost.
Context {L : DSLLocationAPI} {U : Utils} {G : Gdb}.
Variable self : StatePrinter.t.

(** The generated-code variable name in parentheses, when asked for. *)
Definition storage_name (gen : string) : string :=
  if StatePrinter.with_locs self then (" (" ++ gen ++ ")")%string else "".

(** [name = value] *)
Definition binding_line (b : Binding) : string :=
  (name_repr b ++ storage_name (gen_name b) ++ " = "
     ++ StatePrinter.value_image self (gen_name b))%string.

(** [expression -> value] *)
Definition finished_line (e : Expression) : string :=
  (expr_repr e ++ storage_name (result_var e) ++ " -> "
     ++ StatePrinter.value_image self (result_var e))%string.

(** The expression in flight, and where it comes from. *)
Definition in_flight_lines (l : option Expression) : list string :=
  match l with
  | None => []
  | Some e =>
      ("Currently evaluating " ++ expr_repr e)%string
      :: match expr_dsl_sloc e with
         | Some loc => [("from " ++ DSLLocation_str loc)%string]
         | None => []
         end
  end.

Definition scope_lines (sc : ScopeState) : list string :=
  map binding_line (bindings sc)
  ++ map finished_line (fst (sorted_expressions sc))
  ++ in_flight_lines (snd (sorted_expressions sc)).

Definition scope_group (sc : ScopeState) : list string :=
  match scope_lines sc with
  | [] => []
  | ls => "" :: ls
  end.

Definition header (st : State) : list string :=
  ("Running " ++ prop_repr (property st))%string
  :: match dsl_sloc (property st) with
     | Some loc => [("from " ++ DSLLocation_str loc)%string]
     | None => []
     end
  ++ (if in_memoization_lookup st
      then ["About to return a memoized result..."]
      else []).

Definition unfiltered (st : State) : list string :=
  header st ++ concat (map scope_group (scopes st)).
End WithHost.
End Spec.

(** The world after one more line has been printed, and after one more
    breakpoint has been created. *)
Definition say (msg : string) (w : World) : World :=
  mkWorld (stdout w ++ [Line msg]) (stdin w) (breakpoints w).

Definition with_breakpoint (s : string) (w : World) : World :=
  mkWorld (stdout w) (stdin w) (breakpoints w ++ [mkBreakpoint s None]).

(** ** Notions used in the statements *)

Section StateNotions.
Context {L : DSLLocationAPI} {U : Utils} {G : Gdb}.
Import StatePrinter.

(** A run of [print_info] calls on the lines [ls]. *)
Definition print_lines (ls : list string) (st : bool * list string)
  : bool * list string :=
  fold_left (fun st l => print_info l st) ls st.

(** A binding called [v] occurs in one of the scope states. *)
Definition bound_in (v : string) (scs : list ScopeState) : Prop :=
  exists sc b, In sc scs /\ In b (bindings sc) /\ dsl_name b = v.
End StateNotions.

Section BreakNotions.
Context {L : DSLLocationAPI} {G : Gdb}.
Variable context : Context.
Import BreakCommand.

(** The property that [break_on_property] settles on. *)
Definition resolved (qualname : string) : option Property :=
  find_property (Py.lower qualname) (properties (debug_info context)).

(** The two lines of every match, numbered from [i] on. *)
Fixpoint match_lines (idx_width : nat) (i : Z) (ms : list Match)
  : list output :=
  match ms with
  | [] => []
  | m :: ms' =>
      Line (Py.rjust idx_width (idx_fmt i) ++ "In " ++ name (prop m) ++ ", "
              ++ DSLLocation_str (m_dsl_sloc m))%string
      :: Line (Py.spaces idx_width ++ "at " ++ filename (debug_info context)
                 ++ ":" ++ Py.str_int (line_no m))%string
      :: match_lines idx_width (i + 1) ms'
  end.

(** Everything shown before the answer is read: the title, the matches
    numbered from 1, the invitation and the prompt. *)
Definition question (dsl_sloc : DSLLocation) (ms : list Match)
  : list output :=
  Line ("Multiple matches for " ++ DSLLocation_str dsl_sloc ++ ":")%string
  :: match_lines
       (String.length (idx_fmt (Z.of_nat (List.length ms)))) 1 ms
  ++ [Line "Please chose one of the above locations [default=1]:";
      Prompt "> "].

(** The world in which the answer is dealt with. *)
Definition asked (dsl_sloc : DSLLocation) (ms : list Match) (w : World)
  : World :=
  mkWorld (stdout w ++ question dsl_sloc ms) (List.tl (stdin w))
          (breakpoints w).

(** The location is resolved by name or by source location. *)
Definition resolve (spec : string) : Cmd (option nat) :=
  if Py.contains ":" spec then break_on_dsl_sloc context spec
  else break_on_property context spec.
End BreakNotions.

Section EventNotions.
Context {L : DSLLocationAPI}.

(** The [ExprStart] events of a tree of events, in the order in which a
    walk from left to right meets them. *)
Fixpoint expr_starts (e : Event) : list ExprStart :=
  match e with
  | EvScope evs => flat_map expr_starts evs
  | EvExprStart es => [es]
  | EvOther => []
  end.

(** The match that one [ExprStart] of the property [p] gives for the
    location asked for, if it gives one. *)
Definition match_of (p : Property) (dsl_sloc : DSLLocation) (es : ExprStart)
  : list BreakCommand.Match :=
  match es_dsl_sloc es with
  | Some loc =>
      if DSLLocation_matches loc dsl_sloc
      then [BreakCommand.mkMatch p loc (es_line_no es)]
      else []
  | None => []
  end.

(** Induction on events, with the hypothesis for every event of a nested
    scope. *)
Section EventInduction.
Variable P : Event -> Prop.
Hypothesis scope_case : forall evs, Forall P evs -> P (EvScope evs).
Hypothesis start_case : forall es, P (EvExprStart es).
Hypothesis other_case : P EvOther.

Fixpoint Event_nested_ind (e : Event) : P e :=
  match e with
  | EvScope evs =>
      scope_case
        ((fix all (l : list Event) : Forall P l :=
            match l with
            | [] => Forall_nil P
            | x :: r => Forall_cons x (Event_nested_ind x) (all r)
            end) evs)
  | EvExprStart es => start_case es
  | EvOther => other_case
  end.
End EventInduction.
End EventNotions.

(** A text made of white space only. *)
Fixpoint blank (s : string) : bool :=
  match s with
  | EmptyString => true
  | String c s' => Py.isspace c && blank s'
  end.

(** The breakpoints of [w'] are those of [w], or those of [w] and one
    more after them. *)
Definition at_most_one_more (w w' : World) : Prop :=
  breakpoints w' = breakpoints w
  \/ exists b, breakpoints w' = breakpoints w ++ [b].

(** No prompt among the items printed. *)
Fixpoint no_prompt (out : list output) : bool :=
  match out with
  | [] => true
  | Prompt _ :: _ => false
  | Line _ :: out' => no_prompt out'
  end.

(** ** More of the in-memory host

    A debug information with a special property and with two properties
    whose names differ in letter case only, and a context whose selected
    frame is in no property. *)

Module MoreFake.
Import Fake.

Definition special : Property :=
  mkProperty "[dispatcher]Foo.p_one" None (Some 50%Z) [].

Definition p1_shout : Property :=
  mkProperty "FOO.P_ONE" None (Some 500%Z) [].

Definition info : DebugInfo :=
  mkDebugInfo "foo-impl.adb" [special; p1; p2; p1_shout].

Definition context : Context := mkContext info (Some st).

Definition outside : Context := mkContext Fake.info None.

(** The three matches of [spec.py:10]. *)
Definition matches : list BreakCommand.Match :=
  BreakCommand.collect_matches Fake.context (DSLLocation_parse "spec.py:10").

End MoreFake.

(** * Properties *)

(** ** The built-ins *)

Module PyFacts.

Lemma lower_char_idempotent (c : ascii) :
  Py.lower_char (Py.lower_char c) = Py.lower_char c.
Proof.
  destruct c as [b0 b1 b2 b3 b4 b5 b6 b7].
  destruct b0, b1, b2, b3, b4, b5, b6, b7; reflexivity.
Qed.

Lemma lower_idempotent (s : string) : Py.lower (Py.lower s) = Py.lower s.
Proof.
  induction s as [|c s IH]; simpl; [reflexivity|].
  now rewrite lower_char_idempotent, IH.
Qed.

Lemma colon_lower_char (c : ascii) :
  Ascii.eqb ":" (Py.lower_char c) = Ascii.eqb ":" c.
Proof.
  destruct c as [b0 b1 b2 b3 b4 b5 b6 b7].
  destruct b0, b1, b2, b3, b4, b5, b6, b7; reflexivity.
Qed.

Lemma contains_colon_lower (s : string) :
  Py.contains ":" (Py.lower s) = Py.contains ":" s.
Proof.
  induction s as [|c s IH]; [reflexivity|].
  cbn [Py.contains Py.lower]. now rewrite colon_lower_char, IH.
Qed.

Lemma mem_filter (c : ascii) (f : ascii -> bool) (l : list ascii) :
  Py.mem c (filter f l) = f c && Py.mem c l.
Proof.
  unfold Py.mem. induction l as [|d l IH]; simpl.
  - now rewrite andb_false_r.
  - destruct (Ascii.eqb_spec c d) as [->|Hne]; simpl.
    + destruct (f d); simpl; [now rewrite Ascii.eqb_refl|].
      rewrite IH. reflexivity.
    + destruct (f d); simpl; [|exact IH].
      destruct (Ascii.eqb_spec c d); [contradiction|exact IH].
Qed.

(** Membership in [set(s)] is membership in [s]. *)
Lemma mem_char_set (c : ascii) (s : string) :
  Py.mem c (Py.char_set s) = Py.contains c s.
Proof.
  induction s as [|d s IH]; [reflexivity|].
  cbn [Py.char_set Py.contains].
  change (Py.mem c (d :: ?l)) with (Ascii.eqb c d || Py.mem c l).
  rewrite mem_filter, IH.
  destruct (Ascii.eqb_spec c d) as [->|Hne]; simpl; [reflexivity|].
  destruct (Ascii.eqb_spec d c); [congruence|reflexivity].
Qed.

Lemma lstrip_length (s : string) :
  (String.length (Py.lstrip s) <= String.length s)%nat.
Proof.
  induction s as [|c s IH]; simpl; [lia|].
  destruct (Py.isspace c); simpl; lia.
Qed.

(** What [lstrip] leaves starts with a character that is not white. *)
Lemma lstrip_head (s : string) (c : ascii) (r : string) :
  Py.lstrip s = String c r -> Py.isspace c = false.
Proof.
  induction s as [|d s IH]; simpl; [discriminate|].
  destruct (Py.isspace d) eqn:E; [exact IH|].
  intros [= -> ->]. exact E.
Qed.

Lemma span_word_length (s : string) :
  (String.length (fst (Py.span_word s)) + String.length (snd (Py.span_word s))
   = String.length s)%nat.
Proof.
  induction s as [|c s IH]; simpl; [reflexivity|].
  destruct (Py.isspace c); simpl; [reflexivity|].
  destruct (Py.span_word s) as [w r]; simpl in *. lia.
Qed.

Lemma span_word_head (c : ascii) (s : string) :
  Py.isspace c = false ->
  exists w r, Py.span_word (String c s) = (String c w, r)
              /\ (String.length r <= String.length s)%nat.
Proof.
  intros E. simpl. rewrite E.
  pose proof (span_word_length s) as L.
  destruct (Py.span_word s) as [w r]; simpl in L.
  exists w, r. split; [reflexivity|lia].
Qed.

(** Enough cuts: any two bounds that are at least the length of the text
    give the same words. *)
Lemma split_whitespace_fuel (n : nat) :
  forall (m : nat) (s : string),
    (String.length s <= n)%nat -> (String.length s <= m)%nat ->
    Py.split_whitespace n s = Py.split_whitespace m s.
Proof.
  induction n as [|k IH]; intros m s Hn Hm.
  - destruct s; [|simpl in Hn; lia]. destruct m; reflexivity.
  - destruct m as [|m'].
    + destruct s; [reflexivity|simpl in Hm; lia].
    + cbn [Py.split_whitespace]. pose proof (lstrip_length s) as L.
      destruct (Py.lstrip s) as [|c r] eqn:E; [reflexivity|].
      destruct (@span_word_head c r (@lstrip_head s c r E))
        as (w & r' & -> & Lr).
      cbn [String.length] in L. f_equal. apply IH; lia.
Qed.

Lemma split_whitespace_enough (n : nat) (s : string) :
  (String.length s <= n)%nat -> Py.split_whitespace n s = Py.split s.
Proof.
  intros Hn. unfold Py.split. apply split_whitespace_fuel; [exact Hn|lia].
Qed.

(** At most [maxcount] cuts give at most [maxcount + 1] items. *)
Lemma split_whitespace_count (n : nat) :
  forall s, (List.length (Py.split_whitespace n s) <= S n)%nat.
Proof.
  induction n as [|k IH]; intros s; cbn [Py.split_whitespace].
  - destruct (Py.lstrip s); simpl; lia.
  - destruct (Py.lstrip s) as [|c r]; [simpl; lia|].
    destruct (Py.span_word (String c r)) as [w r'].
    cbn [List.length]. specialize (IH r'). lia.
Qed.


End PyFacts.

(** ** The state printer *)

Section StatePrinterFacts.
Context {L : DSLLocationAPI} {U : Utils} {G : Gdb}.
Import StatePrinter.

Lemma binding_image_spec (self : t) (b : Binding) :
  binding_image self b = Spec.binding_line self b.
Proof.
  unfold binding_image, Spec.binding_line, loc_image, Spec.storage_name.
  destruct (with_locs self); reflexivity.
Qed.

Lemma expr_image_spec (self : t) (e : Expression) :
  expr_image self e = Spec.finished_line self e.
Proof.
  unfold expr_image, Spec.finished_line, loc_image, Spec.storage_name.
  destruct (with_locs self); reflexivity.
Qed.

Lemma print_lines_map {A} (image : A -> string) (l : list A) :
  forall st,
    fold_left (fun st a => print_info (image a) st) l st
    = print_lines (map image l) st.
Proof.
  induction l as [|a l IH]; intros st; [reflexivity|].
  cbn [fold_left map]. rewrite IH. reflexivity.
Qed.

Lemma print_lines_app (l1 l2 : list string) (st : bool * list string) :
  print_lines l2 (print_lines l1 st) = print_lines (l1 ++ l2) st.
Proof. unfold print_lines. now rewrite fold_left_app. Qed.

(** The blank line comes once, before the first line, if no line was
    printed in this scope before. *)
Lemma print_lines_sio (ls : list string) :
  forall is_first sio,
    snd (print_lines ls (is_first, sio))
    = sio ++ match ls with
             | [] => []
             | _ => if is_first then "" :: ls else ls
             end.
Proof.
  induction ls as [|a ls IH]; intros is_first sio.
  - simpl. now rewrite app_nil_r.
  - change (print_lines (a :: ls) (is_first, sio))
      with (print_lines ls (print_info a (is_first, sio))).
    unfold print_info, prn.
    destruct is_first; rewrite IH; destruct ls;
      rewrite <- ?app_assoc; reflexivity.
Qed.

(** One turn of the loop appends the group of its scope state. *)
Lemma render_scope_group (self : t) (sio : list string) (sc : ScopeState) :
  render_scope self sio sc = sio ++ Spec.scope_group self sc.
Proof.
  transitivity (snd (print_lines (Spec.scope_lines self sc) (true, sio))).
  - unfold render_scope, Spec.scope_lines, print_binding.
    destruct (sorted_expressions sc) as [done_exprs last_started].
    cbn [fst snd].
    rewrite (print_lines_map (binding_image self)).
    rewrite (print_lines_map (expr_image self)).
    rewrite (map_ext _ _ (binding_image_spec self)).
    rewrite (map_ext _ _ (expr_image_spec self)).
    rewrite <- !print_lines_app. f_equal.
    destruct last_started as [l|]; [|reflexivity].
    cbn [Spec.in_flight_lines]. destruct (expr_dsl_sloc l); reflexivity.
  - rewrite print_lines_sio. unfold Spec.scope_group.
    destruct (Spec.scope_lines self sc); reflexivity.
Qed.

Lemma render_scopes (self : t) (scs : list ScopeState) :
  forall sio,
    fold_left (render_scope self) scs sio
    = sio ++ concat (map (Spec.scope_group self) scs).
Proof.
  induction scs as [|sc scs IH]; intros sio; cbn [fold_left map concat].
  - now rewrite app_nil_r.
  - now rewrite IH, render_scope_group, app_assoc.
Qed.

(** C4. Without a filter, the text of [state] is, in this order: the line
    naming the running property, its source location on the next line if
    it has one, the note about the memoized result if one is about to be
    returned; then for each scope state, outermost first, its bindings in
    declaration order as [name = value], its finished expressions in
    completion order as [expression -> value], and the expression in
    flight after [Currently evaluating]; the first line of every scope
    state that prints something comes after a blank line. *)
Theorem unfiltered_render_order (self : t) (st : State) :
  state self = Some st ->
  filter_name self = None ->
  _render self [] = Spec.unfiltered self st.
Proof.
  intros Hst Hf. unfold _render, Spec.unfiltered, Spec.header.
  rewrite Hst, Hf, render_scopes. f_equal. unfold prn.
  destruct (dsl_sloc (property st)), (in_memoization_lookup st); reflexivity.
Qed.
End StatePrinterFacts.

(** ** The variable filter *)

Section FilterFacts.
Context {L : DSLLocationAPI} {U : Utils} {G : Gdb}.
Import StatePrinter.

Lemma lookup_in_bindings_first (v : string) (pre post : list Binding)
      (b : Binding) :
  (forall b', In b' pre -> dsl_name b' <> v) ->
  dsl_name b = v ->
  lookup_in_bindings v (pre ++ b :: post) = Some b.
Proof.
  intros Hpre Hb. induction pre as [|a pre IH]; cbn [app lookup_in_bindings].
  - now rewrite (proj2 (String.eqb_eq _ _) Hb).
  - destruct (String.eqb_spec (dsl_name a) v) as [E|_].
    + exfalso. apply (Hpre a); [now left|exact E].
    + apply IH. intros b' Hin. apply Hpre. now right.
Qed.

Lemma lookup_in_bindings_none (v : string) (bs : list Binding) :
  (forall b, In b bs -> dsl_name b <> v) ->
  lookup_in_bindings v bs = None.
Proof.
  intros Hbs. induction bs as [|a bs IH]; [reflexivity|].
  cbn [lookup_in_bindings].
  destruct (String.eqb_spec (dsl_name a) v) as [E|_].
  - exfalso. apply (Hbs a); [now left|exact E].
  - apply IH. intros b Hin. apply Hbs. now right.
Qed.

Lemma lookup_in_bindings_some (v : string) (bs : list Binding)
      (b : Binding) :
  lookup_in_bindings v bs = Some b -> In b bs /\ dsl_name b = v.
Proof.
  induction bs as [|a bs IH]; cbn [lookup_in_bindings]; [discriminate|].
  destruct (String.eqb_spec (dsl_name a) v) as [E|_].
  - intros [= <-]. split; [now left|exact E].
  - intros Hl. destruct (IH Hl) as [Hin Hn]. split; [now right|exact Hn].
Qed.

Lemma lookup_in_bindings_found (v : string) (bs : list Binding) :
  (exists b, In b bs /\ dsl_name b = v) ->
  exists b, lookup_in_bindings v bs = Some b.
Proof.
  intros (b & Hin & Hb). destruct (lookup_in_bindings v bs) as [b'|] eqn:E.
  - now exists b'.
  - exfalso. induction bs as [|a bs IH]; [exact Hin|].
    cbn [lookup_in_bindings] in E.
    destruct (String.eqb_spec (dsl_name a) v) as [_|Hne]; [discriminate|].
    destruct Hin as [->|Hin]; [exact (Hne Hb)|exact (IH Hin E)].
Qed.

Lemma lookup_in_scopes_first (v : string) (pre post : list ScopeState)
      (sc : ScopeState) (b : Binding) :
  (forall sc' b', In sc' pre -> In b' (bindings sc') -> dsl_name b' <> v) ->
  lookup_in_bindings v (bindings sc) = Some b ->
  lookup_in_scopes v (pre ++ sc :: post) = Some b.
Proof.
  intros Hpre Hb. induction pre as [|a pre IH]; cbn [app lookup_in_scopes].
  - now rewrite Hb.
  - rewrite lookup_in_bindings_none.
    + apply IH. intros sc' b' Hin. apply Hpre. now right.
    + intros b' Hin. apply (Hpre a); [now left|exact Hin].
Qed.

Lemma lookup_in_scopes_none (v : string) (scs : list ScopeState) :
  ~ bound_in v scs -> lookup_in_scopes v scs = None.
Proof.
  intros Hn. induction scs as [|a scs IH]; [reflexivity|].
  cbn [lookup_in_scopes]. rewrite lookup_in_bindings_none.
  - apply IH. intros (sc & b & Hsc & Hb). apply Hn.
    exists sc, b. split; [now right|exact Hb].
  - intros b Hin Hb. apply Hn. exists a, b. split; [now left|now split].
Qed.

Lemma lookup_in_scopes_some (v : string) (scs : list ScopeState)
      (b : Binding) :
  lookup_in_scopes v scs = Some b ->
  exists sc, In sc scs /\ In b (bindings sc) /\ dsl_name b = v.
Proof.
  induction scs as [|a scs IH]; cbn [lookup_in_scopes]; [discriminate|].
  destruct (lookup_in_bindings v (bindings a)) as [b'|] eqn:E.
  - intros [= <-]. exists a. split; [now left|].
    exact (lookup_in_bindings_some _ _ E).
  - intros Hl. destruct (IH Hl) as (sc & Hsc & Hb).
    exists sc. split; [now right|exact Hb].
Qed.

Lemma lookup_in_scopes_found (v : string) (scs : list ScopeState) :
  bound_in v scs -> exists b, lookup_in_scopes v scs = Some b.
Proof.
  intros Hb. destruct (lookup_in_scopes v scs) as [b|] eqn:E.
  - now exists b.
  - exfalso. revert Hb E. induction scs as [|a scs IH].
    + intros (sc & b & [] & _).
    + intros (sc & b & Hsc & Hin & Hv). cbn [lookup_in_scopes].
      destruct (lookup_in_bindings v (bindings a)) as [b'|] eqn:Ea;
        [discriminate|].
      destruct Hsc as [->|Hsc].
      * destruct (@lookup_in_bindings_found v (bindings sc))
          as [b'' Hb'']; [now exists b|congruence].
      * apply IH. now exists sc, b.
Qed.

(** With a filter, [_render] is decided by the lookup alone. *)
Lemma filtered_render_lookup (self : t) (st : State) (v : string) :
  state self = Some st -> var_name self = Some v -> v <> EmptyString ->
  _render self []
  = match lookup_in_scopes v (scopes st) with
    | Some b => [binding_image self b]
    | None => [Py.format ["No binding called "; v]]
    end.
Proof.
  intros Hst Hv Hne. unfold _render, filter_name. rewrite Hst, Hv.
  destruct v as [|c v]; [congruence|].
  destruct (lookup_in_scopes (String c v) (scopes st)); reflexivity.
Qed.

(** C6. With a variable filter: when some binding of the snapshot is
    called exactly as the filter, what is rendered is the line of one
    such binding (its name and its value) and nothing else; when no
    binding is, the only line is [No binding called], with the name. *)
Theorem filtered_render (self : t) (st : State) (v : string) :
  state self = Some st -> var_name self = Some v -> v <> EmptyString ->
  (bound_in v (scopes st) ->
   exists sc b,
     In sc (scopes st) /\ In b (bindings sc) /\ dsl_name b = v
     /\ _render self []
        = [(name_repr b ++ loc_image self (gen_name b) ++ " = "
              ++ value_image self (gen_name b))%string])
  /\ (~ bound_in v (scopes st) ->
      _render self [] = [("No binding called " ++ v)%string]).
Proof.
  intros Hst Hv Hne. rewrite (filtered_render_lookup self Hst Hv Hne).
  split.
  - intros Hb. destruct (lookup_in_scopes_found Hb) as [b E]. rewrite E.
    destruct (lookup_in_scopes_some _ _ E) as (sc & Hsc & Hin & Hn).
    exists sc, b. repeat split; assumption.
  - intros Hn. now rewrite (lookup_in_scopes_none Hn).
Qed.

(** C9. When several bindings are called as the filter, the one rendered
    is the first in scan order, scope states outermost first and bindings
    in declaration order inside a scope state; it is the only line, so no
    later binding of that name is rendered. *)
Theorem filtered_render_first_match (self : t) (st : State) (v : string)
        (pre post : list ScopeState) (sc : ScopeState)
        (bpre bpost : list Binding) (b : Binding) :
  state self = Some st -> var_name self = Some v -> v <> EmptyString ->
  scopes st = pre ++ sc :: post ->
  bindings sc = bpre ++ b :: bpost ->
  dsl_name b = v ->
  (forall sc' b', In sc' pre -> In b' (bindings sc') -> dsl_name b' <> v) ->
  (forall b', In b' bpre -> dsl_name b' <> v) ->
  _render self [] = [binding_image self b].
Proof.
  intros Hst Hv Hne Hscs Hbs Hb Hpre Hbpre.
  rewrite (filtered_render_lookup self Hst Hv Hne), Hscs.
  rewrite (lookup_in_scopes_first pre post sc Hpre (b := b)); [reflexivity|].
  rewrite Hbs. now apply lookup_in_bindings_first.
Qed.
End FilterFacts.

(** ** Values and their ellipsis *)

Section ValueFacts.
Context {L : DSLLocationAPI} {U : Utils}.
Import StatePrinter.

Lemma value_image_full {G : Gdb} (self : t) (v : string) :
  with_ellipsis self = false ->
  value_image self v = frame_read_var (Py.lower v).
Proof. intros E. unfold value_image. now rewrite E. Qed.

(** The command with a flags token that holds only known flags goes on
    with the remaining arguments and the set of its flags. *)
Lemma invoke_flags {G : Gdb} (context : Context) (arg fl : string)
      (rest : list string) :
  Py.split arg = String "/" fl :: rest ->
  Py.difference (Py.char_set fl) "sf" = [] ->
  StateCommand.invoke context arg
  = StateCommand.after_flags context rest (Py.char_set fl).
Proof.
  intros Hs Hd. unfold StateCommand.invoke. rewrite Hs.
  cbn [Py.startswith String.prefix Py.tail].
  destruct (Ascii.ascii_dec "/" "/") as [_|Hne]; [|congruence].
  destruct fl; cbn [String.prefix]; now rewrite Hd.
Qed.

(** C5. With the ellipsis enabled, the image of a variable whose text is
    longer than 50 characters is the first 50 characters of the text
    followed by [...], and a text of 50 characters or less is rendered
    unchanged; when the flags of the command hold [f], the printer that
    the command runs renders the whole text whatever its length. *)
Theorem ellipsis_truncation {G : Gdb} (self : t) (v : string) :
  let text := frame_read_var (Py.lower v) in
  (with_ellipsis self = true -> (50 < String.length text)%nat ->
   value_image self v = (String.substring 0 50 text ++ "...")%string)
  /\ (with_ellipsis self = true -> (String.length text <= 50)%nat ->
      value_image self v = text)
  /\ (forall (context : Context) (arg fl : string) (rest : list string),
        Py.split arg = String "/" fl :: rest ->
        Py.difference (Py.char_set fl) "sf" = [] ->
        Py.contains "f" fl = true ->
        let p := StateCommand.printer context (Py.char_set fl)
                   (fst (StateCommand.pop_var_name rest)) in
        StateCommand.invoke context arg
        = (StateCommand.report_extra
             (snd (StateCommand.pop_var_name rest)) ;;
           StatePrinter.run p)
        /\ value_image p v = text).
Proof.
  intros text. unfold value_image. fold text. split; [|split].
  - intros -> Hlen. unfold ellipsis_limit.
    now rewrite (proj2 (Nat.ltb_lt _ _) Hlen).
  - intros -> Hlen. unfold ellipsis_limit.
    now rewrite (proj2 (Nat.ltb_ge _ _) Hlen).
  - intros context arg fl rest Hs Hd Hf. split.
    + rewrite (invoke_flags context _ Hs Hd).
      unfold StateCommand.after_flags.
      now destruct (StateCommand.pop_var_name rest).
    + cbn [StateCommand.printer init with_ellipsis].
      now rewrite PyFacts.mem_char_set, Hf.
Qed.

(** C10. The frame is only ever asked for the lower-case form of a
    generated variable name: two spellings of a name that differ in
    letter case only have the same image, and so do two frames that agree
    on the lower-case names. *)
Theorem value_image_lower_case (g1 g2 : Gdb) (self : t) (n1 n2 : string) :
  Py.lower n1 = Py.lower n2 ->
  (forall n, Py.lower n = n ->
             frame_read_var (Gdb := g1) n = frame_read_var (Gdb := g2) n) ->
  value_image (G := g1) self n1 = value_image (G := g2) self n2.
Proof.
  intros Hn Hg. unfold value_image.
  rewrite Hn, (Hg (Py.lower n2) (PyFacts.lower_idempotent n2)).
  reflexivity.
Qed.
End ValueFacts.

(** ** Breakpoints by qualified name *)

Section BreakOnPropertyFacts.
Context {L : DSLLocationAPI} {G : Gdb}.
Variable context : Context.
Import BreakCommand.

Lemma find_property_some (lp : string) (props : list Property)
      (p : Property) :
  find_property lp props = Some p -> In p props /\ Py.lower (name p) = lp.
Proof.
  induction props as [|a props IH]; cbn [find_property]; [discriminate|].
  destruct (String.eqb_spec (Py.lower (name a)) lp) as [E|_].
  - intros [= <-]. split; [now left|exact E].
  - intros Hf. destruct (IH Hf) as [Hin Hn]. split; [now right|exact Hn].
Qed.

Lemma find_property_none (lp : string) (props : list Property) :
  (forall p, In p props -> Py.lower (name p) <> lp) ->
  find_property lp props = None.
Proof.
  intros Hn. induction props as [|a props IH]; [reflexivity|].
  cbn [find_property].
  destruct (String.eqb_spec (Py.lower (name a)) lp) as [E|_].
  - exfalso. apply (Hn a); [now left|exact E].
  - apply IH. intros p Hin. apply Hn. now right.
Qed.

Lemma break_on_property_resolved (q : string) (w : World) :
  break_on_property context q w
  = match resolved context q with
    | None => (Returned None, say ("No such property: " ++ q)%string w)
    | Some p =>
        match body_start p with
        | None =>
            (Returned None,
             say ("Cannot break on " ++ name p ++ ": it has no code")%string w)
        | Some start =>
            (Returned (Some (List.length (breakpoints w))),
             with_breakpoint
               (filename (debug_info context) ++ ":" ++ Py.str_int start)%string
               w)
        end
    end.
Proof.
  unfold break_on_property, resolved.
  destruct (find_property _ _) as [p|]; [|reflexivity].
  destruct (body_start p); reflexivity.
Qed.

(** Every spelling of the name of a property is resolved, to the first
    property of that name, letter case apart. *)
Lemma find_property_complete (lp : string) (props : list Property)
      (p : Property) :
  In p props -> Py.lower (name p) = lp ->
  exists p',
    find_property lp props = Some p'
    /\ In p' props /\ Py.lower (name p') = lp
    /\ ((forall p'', In p'' props -> Py.lower (name p'') = lp -> p'' = p) ->
        p' = p).
Proof.
  induction props as [|a props IH]; intros Hin Hn; [destruct Hin|].
  cbn [find_property].
  destruct (String.eqb_spec (Py.lower (name a)) lp) as [E|Hne].
  - exists a. split; [reflexivity|]. split; [now left|]. split; [exact E|].
    intros Hu. apply Hu; [now left|exact E].
  - destruct Hin as [->|Hin]; [contradiction|].
    destruct (IH Hin Hn) as (p' & Hf & Hin' & Hn' & Hu').
    exists p'. split; [exact Hf|]. split; [now right|]. split; [exact Hn'|].
    intros Hu. apply Hu'. intros p'' Hp''. apply Hu. now right.
Qed.

(** C7. Resolution by qualified name ignores letter case: every spelling
    of the name of a property is resolved, and two spellings of a name
    that differ in case only resolve to the same property, the one of that
    name, and put the same breakpoint, at the start of its body in the
    generated code; a name that matches no property is answered by [No
    such property], a matched property without a body by [Cannot break on
    ...: it has no code], and in both cases the breakpoints of the host
    are left as they were.  The same holds of the [break] command given
    the one-word argument. *)
Theorem break_on_property_case_insensitive (q1 q2 : string) (w : World) :
  Py.lower q1 = Py.lower q2 ->
  let props := properties (debug_info context) in
  let file := filename (debug_info context) in
  resolved context q1 = resolved context q2
  /\ (forall p start,
        resolved context q1 = Some p -> body_start p = Some start ->
        In p props /\ Py.lower (name p) = Py.lower q1
        /\ break_on_property context q1 w
           = (Returned (Some (List.length (breakpoints w))),
              with_breakpoint (file ++ ":" ++ Py.str_int start)%string w)
        /\ break_on_property context q2 w = break_on_property context q1 w)
  /\ (forall p,
        resolved context q1 = Some p -> body_start p = None ->
        break_on_property context q1 w
        = (Returned None,
           say ("Cannot break on " ++ name p ++ ": it has no code")%string w)
        /\ break_on_property context q2 w = break_on_property context q1 w)
  /\ ((forall p, In p props -> Py.lower (name p) <> Py.lower q1) ->
      break_on_property context q1 w
      = (Returned None, say ("No such property: " ++ q1)%string w)
      /\ break_on_property context q2 w
         = (Returned None, say ("No such property: " ++ q2)%string w))
  /\ (forall a1 a2,
        argv_of a1 = [q1] -> argv_of a2 = [q2] ->
        Py.contains ":" q1 = false ->
        fst (invoke context a1 w) = fst (invoke context a2 w)
        /\ breakpoints (snd (invoke context a1 w))
           = breakpoints (snd (invoke context a2 w)))
  /\ (forall p,
        In p props -> Py.lower (name p) = Py.lower q1 ->
        exists p',
          resolved context q1 = Some p' /\ resolved context q2 = Some p'
          /\ In p' props /\ Py.lower (name p') = Py.lower (name p)
          /\ ((forall p'', In p'' props ->
                           Py.lower (name p'') = Py.lower (name p) ->
                           p'' = p) ->
              p' = p)
          /\ break_on_property context q2 w = break_on_property context q1 w
          /\ break_on_property context q1 w
             = match body_start p' with
               | Some start =>
                   (Returned (Some (List.length (breakpoints w))),
                    with_breakpoint (file ++ ":" ++ Py.str_int start)%string
                                    w)
               | None =>
                   (Returned None,
                    say ("Cannot break on " ++ name p'
                           ++ ": it has no code")%string w)
               end).
Proof.
  intros Hq props file.
  assert (Hr : resolved context q1 = resolved context q2)
    by (unfold resolved; now rewrite Hq).
  split; [exact Hr|]. split; [|split; [|split; [|split]]].
  - intros p start Hp Hs.
    destruct (@find_property_some _ _ p Hp) as [Hin Hn].
    rewrite !break_on_property_resolved, <- Hr, Hp, Hs. now repeat split.
  - intros p Hp Hs.
    rewrite !break_on_property_resolved, <- Hr, Hp, Hs. now split.
  - intros Hn. rewrite !break_on_property_resolved, <- Hr.
    unfold resolved.
    rewrite (@find_property_none (Py.lower q1)
               (properties (debug_info context)) Hn).
    now split.
  - intros a1 a2 H1 H2 Hc. unfold invoke, break_at. rewrite H1, H2.
    assert (Hc2 : Py.contains ":" q2 = false).
    { now rewrite <- PyFacts.contains_colon_lower, <- Hq,
        PyFacts.contains_colon_lower. }
    rewrite Hc, Hc2. unfold bind.
    rewrite !break_on_property_resolved, <- Hr.
    destruct (resolved context q1) as [p|]; [|now split].
    destruct (body_start p); now split.
  - intros p Hin Hn.
    destruct (@find_property_complete (Py.lower q1) props p Hin Hn)
      as (p' & Hf & Hin' & Hn' & Hu).
    exists p'. change (resolved context q1 = Some p') in Hf.
    split; [exact Hf|]. split; [now rewrite <- Hr|].
    split; [exact Hin'|]. split; [now rewrite Hn|]. split.
    + intros Hu'. apply Hu. intros p'' Hp'' Hl. apply Hu'; [exact Hp''|].
      now rewrite Hn.
    + rewrite !break_on_property_resolved, <- Hr, Hf.
      split; [reflexivity|]. now destruct (body_start p').
Qed.
End BreakOnPropertyFacts.

(** ** The words of a line and the items of [split(None, 2)] *)

Module SplitFacts.







End SplitFacts.

(** ** The arguments of [break] *)

Section BreakArgumentsFacts.
Context {L : DSLLocationAPI} {G : Gdb}.
Variable context : Context.
Import BreakCommand.

Lemma argv_of_count (arg : string) : (List.length (argv_of arg) <= 3)%nat.
Proof. apply PyFacts.split_whitespace_count. Qed.



End BreakArgumentsFacts.

(** ** Breakpoints by source location *)

Section BreakOnSlocFacts.
Context {L : DSLLocationAPI} {G : Gdb}.
Variable context : Context.
Import BreakCommand.

Lemma print_matches_lines (idx_width : nat) (ms : list Match) :
  forall i w,
    print_matches context idx_width i ms w
    = (Returned tt,
       mkWorld (stdout w ++ match_lines context idx_width i ms)
               (stdin w) (breakpoints w)).
Proof.
  induction ms as [|m ms IH]; intros i w.
  - cbn [print_matches match_lines ret]. rewrite app_nil_r.
    now destruct w.
  - cbn [print_matches match_lines]. unfold bind at 1.
    unfold print_match, bind, print, emit. rewrite IH.
    cbn [stdout stdin breakpoints]. rewrite <- !app_assoc. reflexivity.
Qed.

(** [break_on_dsl_sloc], case by case. *)
Lemma break_on_dsl_sloc_cases (s : string) (w : World) :
  let dsl_sloc := DSLLocation_parse s in
  let ms := collect_matches context dsl_sloc in
  let n := Z.of_nat (List.length ms) in
  break_on_dsl_sloc context s w
  = match ms with
    | [] => (Returned None,
             say ("No match for " ++ DSLLocation_str dsl_sloc)%string w)
    | [m] => break_on_match context m w
    | _ =>
        let w' := asked context dsl_sloc ms w in
        match stdin w with
        | [] => (Returned None, say "Aborting: no breakpoint created" w')
        | EmptyString :: _ => select context ms 1 w'
        | choice :: _ =>
            match Py.int choice with
            | None =>
                (Returned None,
                 say ("Invalid index choice: " ++ choice)%string w')
            | Some c =>
                if (c <? 1)%Z || (n <? c)%Z then
                  (Returned None,
                   say ("Choice must be in range 1-" ++ Py.str_int n)%string
                       w')
                else select context ms c w'
            end
        end
    end.
Proof.
  intros dsl_sloc ms n. subst n.
  unfold break_on_dsl_sloc. fold dsl_sloc. fold ms.
  destruct ms as [|m1 [|m2 ms']] eqn:E; [reflexivity|reflexivity|].
  rewrite <- E. unfold bind at 1. unfold print at 1, emit.
  unfold bind at 1. rewrite print_matches_lines.
  unfold bind at 1. unfold print at 1, emit.
  unfold bind at 1. unfold get_input. cbn [stdout stdin breakpoints].
  unfold asked, question.
  rewrite <- !app_assoc. cbn [app].
  destruct (stdin w) as [|choice rest]; [reflexivity|].
  cbn [List.tl]. destruct choice as [|c0 choice]; [reflexivity|].
  destruct (Py.int (String c0 choice)) as [c|]; [|reflexivity].
  destruct ((c <? 1)%Z || (Z.of_nat (List.length ms) <? c)%Z);
    reflexivity.
Qed.

(** A number accepted by the range check is used as it is to index the
    list of matches, which starts at 0: the answer [c] below the number
    of matches takes the match listed under [c + 1] ... *)
Lemma select_below (ms : list Match) (c : nat) (m : Match) (w : World) :
  nth_error ms (S c) = Some m ->
  select context ms (Z.of_nat (S c)) w
  = (Returned (Some (List.length (breakpoints w))),
     with_breakpoint
       (filename (debug_info context) ++ ":" ++ Py.str_int (line_no m))%string
       w).
Proof.
  intros Hm. unfold select, Py.index.
  assert (Hlt : (S c < List.length ms)%nat)
    by (apply nth_error_Some; congruence).
  destruct (Z.ltb_spec (Z.of_nat (S c)) 0) as [?|_]; [lia|].
  destruct (Z.ltb_spec (Z.of_nat (S c)) 0) as [?|_]; [lia|].
  destruct (Z.leb_spec (Z.of_nat (List.length ms)) (Z.of_nat (S c)))
    as [?|_]; [lia|].
  cbn [orb]. rewrite Nat2Z.id, Hm. reflexivity.
Qed.

(** ... and the answer that is the number of matches is outside the
    list. *)
Lemma select_last (ms : list Match) (w : World) :
  ms <> [] ->
  select context ms (Z.of_nat (List.length ms)) w
  = (Raised (IndexError "list index out of range"), w).
Proof.
  intros Hne. unfold select, Py.index.
  destruct (Z.ltb_spec (Z.of_nat (List.length ms)) 0) as [?|_]; [lia|].
  destruct (Z.ltb_spec (Z.of_nat (List.length ms)) 0) as [?|_]; [lia|].
  rewrite Z.leb_refl. reflexivity.
Qed.

(** Without a condition, a resolution that fails returns. *)
Lemma break_at_unresolved (spec : string) (w w' : World) :
  resolve context spec w = (Returned None, w') ->
  break_at context spec None w = (Returned tt, w').
Proof.
  unfold resolve, break_at, bind. intros ->. reflexivity.
Qed.

(** With a condition, the [None] that a failed resolution returns is
    used as a breakpoint. *)
Lemma break_at_unresolved_condition (spec cond : string) (w w' : World) :
  cond <> EmptyString ->
  resolve context spec w = (Returned None, w') ->
  break_at context spec (Some cond) w
  = (Raised (AttributeError "'NoneType' object has no attribute 'condition'"),
     w').
Proof.
  unfold resolve, break_at, bind. intros Hc ->.
  destruct cond; [congruence|reflexivity].
Qed.
End BreakOnSlocFacts.

(** ** The [state] command and the arguments left over *)

Section StateCommandFacts.
Context {L : DSLLocationAPI} {U : Utils} {G : Gdb}.
Variable context : Context.
Import StateCommand.

(** After the message about the arguments left over, the command goes on
    and prints the state, filtered by the first argument. *)
Lemma after_flags_extra (a b : string) (rest : list string)
      (flags : list ascii) (w : World) :
  after_flags context (a :: b :: rest) flags w
  = (Returned tt,
     say (StatePrinter.getvalue
            (StatePrinter._render (printer context flags (Some a)) []))
         (say ("Invalid extra arguments: " ++ Py.join " " (b :: rest))%string
              w)).
Proof. reflexivity. Qed.

(** Unknown flags, for their part, end the command. *)
Lemma invoke_invalid_flags (arg fl : string) (rest : list string)
      (w : World) :
  Py.split arg = String "/" fl :: rest ->
  Py.difference (Py.char_set fl) "sf" <> [] ->
  exists msg, invoke context arg w = (Returned tt, say msg w).
Proof.
  intros Hs Hd. unfold invoke. rewrite Hs.
  cbn [Py.startswith String.prefix Py.tail].
  destruct (Ascii.ascii_dec "/" "/") as [_|Hne]; [|congruence].
  assert (Hp : String.prefix "" fl = true) by now destruct fl.
  rewrite Hp. destruct (Py.difference (Py.char_set fl) "sf");
    [congruence|]. eexists. reflexivity.
Qed.
End StateCommandFacts.

(** ** The commands on the in-memory host *)

Section OnTheFakeHost.
Import Fake.

(** C3. [state x extra more]: the arguments left over are reported, and
    the state is printed all the same, filtered by [x]; the command does
    not stop at the message. *)
Theorem state_extra_arguments_still_render :
  StateCommand.invoke context "x extra more" (world [])
  = (Returned tt,
     mkWorld [Line "Invalid extra arguments: extra more";
              Line (StatePrinter.getvalue ["x = 1"])] [] [])
  /\ StateCommand.invoke context "a b" (world [])
     = (Returned tt,
        mkWorld [Line "Invalid extra arguments: b";
                 Line (StatePrinter.getvalue ["No binding called a"])]
                [] []).
Proof. split; reflexivity. Qed.

(** C1. [break spec.py:10] has three matches, listed as 1, 2 and 3 with
    the generated lines 100, 200 and 300.  The answer [1] and the empty
    answer put the breakpoint on line 200, the line of the match listed
    second, the answer [2] on line 300, and the answer [3] raises
    [IndexError] and creates no breakpoint. *)
Theorem disambiguation_choice_is_shifted :
  let run answer := BreakCommand.invoke context "spec.py:10" (world [answer]) in
  map BreakCommand.line_no
      (BreakCommand.collect_matches context (DSLLocation_parse "spec.py:10"))
  = [100; 200; 300]%Z
  /\ (fst (run "1") = Returned tt
      /\ breakpoints (snd (run "1")) = [bp "200"])
  /\ (fst (run "") = Returned tt
      /\ breakpoints (snd (run "")) = [bp "200"])
  /\ (fst (run "2") = Returned tt
      /\ breakpoints (snd (run "2")) = [bp "300"])
  /\ (fst (run "3") = Raised (IndexError "list index out of range")
      /\ breakpoints (snd (run "3")) = []).
Proof. cbv zeta. repeat split; reflexivity. Qed.

(** C2. With a condition after [if], every way in which the resolution
    of the location fails (no such property, a property without a body,
    no match, the end of the input at the prompt, an answer out of range
    or not a number) ends in an [AttributeError] that leaves the command;
    no breakpoint is created.  Without the condition the same commands
    return. *)
Theorem unresolved_break_with_condition_raises :
  let run arg input := BreakCommand.invoke context arg (world input) in
  (fst (run "Nothing.p if x" []) = Raised no_condition_attribute
   /\ fst (run "Baz.p_abstract if x" []) = Raised no_condition_attribute
   /\ fst (run "spec.py:99 if x" []) = Raised no_condition_attribute
   /\ fst (run "spec.py:10 if x" []) = Raised no_condition_attribute
   /\ fst (run "spec.py:10 if x" ["0"]) = Raised no_condition_attribute
   /\ fst (run "spec.py:10 if x" ["zero"]) = Raised no_condition_attribute)
  /\ (fst (run "Nothing.p" []) = Returned tt
      /\ fst (run "Baz.p_abstract" []) = Returned tt
      /\ fst (run "spec.py:99" []) = Returned tt
      /\ fst (run "spec.py:10" []) = Returned tt
      /\ fst (run "spec.py:10" ["0"]) = Returned tt
      /\ fst (run "spec.py:10" ["zero"]) = Returned tt)
  /\ (forall arg input,
        In (arg, input)
           [("Nothing.p if x", []); ("Baz.p_abstract if x", []);
            ("spec.py:99 if x", []); ("spec.py:10 if x", []);
            ("spec.py:10 if x", ["0"]); ("spec.py:10 if x", ["zero"])] ->
        breakpoints (snd (run arg input)) = []).
Proof.
  cbv zeta. repeat split; try reflexivity.
  intros arg input Hin. cbn [In] in Hin.
  repeat (destruct Hin as [[= <- <-]|Hin]; [reflexivity|]).
  destruct Hin.
Qed.
End OnTheFakeHost.

(** ** The general statements at work on the in-memory host *)

Section Witnesses.
Import Fake.

Lemma unfiltered_render_order_witness :
  StatePrinter.state printer = Some st
  /\ StatePrinter.filter_name printer = None
  /\ StatePrinter._render printer []
     = ["Running Foo.p_one"; "from spec.py:8"; "";
        "x = 1";
        "y = 01234567890123456789012345678901234567890123456789...";
        "<Expr R_4> -> 2"; "Currently evaluating <Expr R_5>";
        "from spec.py:10"; ""; "x = 3"].
Proof.
  split; [reflexivity|]. split; [reflexivity|].
  rewrite (@unfiltered_render_order locations utils gdb printer st);
    reflexivity.
Defined.

Lemma ellipsis_truncation_witness :
  (StatePrinter.with_ellipsis printer = true
   /\ (50 < String.length (frame_read_var (Py.lower "Y_2")))%nat
   /\ StatePrinter.value_image printer "Y_2"
      = "01234567890123456789012345678901234567890123456789...")
  /\ ((String.length (frame_read_var (Py.lower "X_1")) <= 50)%nat
      /\ StatePrinter.value_image printer "X_1" = "1")
  /\ (Py.split "/f y" = ["/f"; "y"]
      /\ Py.difference (Py.char_set "f") "sf" = []
      /\ Py.contains "f" "f" = true
      /\ StatePrinter.value_image
           (StateCommand.printer context (Py.char_set "f") (Some "y")) "Y_2"
         = long_value).
Proof.
  assert (Hlong : (50 < String.length (frame_read_var (Py.lower "Y_2")))%nat)
    by (vm_compute; lia).
  assert (Hshort : (String.length (frame_read_var (Py.lower "X_1")) <= 50)%nat)
    by (vm_compute; lia).
  split; [|split].
  - split; [reflexivity|]. split; [exact Hlong|].
    exact (proj1 (@ellipsis_truncation locations utils gdb printer "Y_2")
                 eq_refl Hlong).
  - split; [exact Hshort|].
    exact (proj1 (proj2 (@ellipsis_truncation locations utils gdb printer "X_1"))
                 eq_refl Hshort).
  - repeat (split; [reflexivity|]).
    exact (proj2 (proj2 (proj2 (@ellipsis_truncation locations utils gdb
                                  printer "Y_2"))
                        context "/f y" "f" ["y"] eq_refl eq_refl eq_refl)).
Defined.

Lemma value_image_lower_case_witness :
  Py.lower "Y_2" = Py.lower "y_2"
  /\ StatePrinter.value_image printer "Y_2"
     = StatePrinter.value_image printer "y_2".
Proof.
  split; [reflexivity|].
  apply (@value_image_lower_case locations gdb gdb printer "Y_2" "y_2");
    reflexivity.
Defined.

Lemma filtered_render_witness :
  bound_in "x" (scopes st)
  /\ (exists sc b,
        In sc (scopes st) /\ In b (bindings sc) /\ dsl_name b = "x"
        /\ StatePrinter._render printer_x []
           = [(name_repr b ++ StatePrinter.loc_image printer_x (gen_name b)
                 ++ " = "
                 ++ StatePrinter.value_image printer_x (gen_name b))%string]).
Proof.
  assert (Hb : bound_in "x" (scopes st)).
  { exists outer, x_outer.
    split; [now left|]. split; [now left|reflexivity]. }
  split; [exact Hb|].
  apply (proj1 (@filtered_render locations utils gdb printer_x st "x"
                  eq_refl eq_refl ltac:(discriminate)) Hb).
Defined.

Lemma filtered_render_first_match_witness :
  StatePrinter._render printer_x [] = ["x = 1"].
Proof.
  apply (@filtered_render_first_match locations utils gdb printer_x st "x"
           [] [middle; inner] outer [] [y_outer] x_outer);
    try reflexivity; try discriminate; intros; contradiction.
Defined.

Lemma break_on_property_case_insensitive_witness :
  Py.lower "foo.P_ONE" = Py.lower "FOO.p_one"
  /\ resolved context "foo.P_ONE" = Some p1
  /\ BreakCommand.break_on_property context "FOO.p_one" (world [])
     = BreakCommand.break_on_property context "foo.P_ONE" (world [])
  /\ BreakCommand.break_on_property context "foo.P_ONE" (world [])
     = (Returned (Some 0%nat), mkWorld [] [] [bp "90"])
  /\ (In p2 (properties (debug_info context))
      /\ Py.lower (name p2) = Py.lower "bar.P_TWO"
      /\ Py.lower "bar.P_TWO" = Py.lower "BAR.p_two"
      /\ exists p',
           resolved context "bar.P_TWO" = Some p'
           /\ resolved context "BAR.p_two" = Some p'
           /\ Py.lower (name p') = Py.lower (name p2)
           /\ BreakCommand.break_on_property context "BAR.p_two" (world [])
              = BreakCommand.break_on_property context "bar.P_TWO" (world [])).
Proof.
  split; [reflexivity|]. split; [reflexivity|].
  destruct (proj1 (proj2 (@break_on_property_case_insensitive locations gdb
                            context "foo.P_ONE" "FOO.p_one" (world [])
                            eq_refl))
                  p1 90%Z eq_refl eq_refl)
    as (_ & _ & H1 & H2).
  split; [exact H2|]. split; [exact H1|].
  assert (Hin : In p2 (properties (debug_info context)))
    by (right; now left).
  split; [exact Hin|]. split; [reflexivity|]. split; [reflexivity|].
  destruct (proj2 (proj2 (proj2 (proj2 (proj2
              (@break_on_property_case_insensitive locations gdb
                 context "bar.P_TWO" "BAR.p_two" (world []) eq_refl)))))
              p2 Hin eq_refl)
    as (p' & Hr1 & Hr2 & _ & Hn & _ & Hb & _).
  exists p'. repeat split; assumption.
Defined.


End Witnesses.

(** * Further properties of the commands *)

(** ** Completion of property names *)

Section CompleteFacts.
Context {L : DSLLocationAPI} {G : Gdb}.
Variable context : Context.
Import BreakCommand.

Lemma prefix_empty (s : string) : String.prefix "" s = true.
Proof. now destruct s. Qed.

Lemma prefix_append (p s : string) : String.prefix p (p ++ s)%string = true.
Proof.
  induction p as [|c p IH]; [apply prefix_empty|].
  cbn [String.append String.prefix].
  destruct (Ascii.ascii_dec c c) as [_|Hne]; [exact IH|congruence].
Qed.

Lemma bracket_lower_char (c : ascii) :
  Ascii.eqb "[" (Py.lower_char c) = Ascii.eqb "[" c.
Proof.
  destruct c as [b0 b1 b2 b3 b4 b5 b6 b7].
  destruct b0, b1, b2, b3, b4, b5, b6, b7; reflexivity.
Qed.

Lemma startswith_bracket (s : string) :
  Py.startswith "[" s
  = match s with
    | EmptyString => false
    | String c _ => Ascii.eqb "[" c
    end.
Proof.
  destruct s as [|c s]; [reflexivity|].
  unfold Py.startswith. cbn [String.prefix]. rewrite prefix_empty.
  destruct (Ascii.ascii_dec "[" c) as [<-|Hne]; [reflexivity|].
  symmetry. now apply Ascii.eqb_neq.
Qed.

Lemma startswith_bracket_lower (s : string) :
  Py.startswith "[" (Py.lower s) = Py.startswith "[" s.
Proof.
  rewrite !startswith_bracket. destruct s as [|c s]; [reflexivity|].
  cbn [Py.lower]. apply bracket_lower_char.
Qed.

(** A text that starts with a text that starts with a bracket starts with
    a bracket. *)
Lemma startswith_bracket_trans (p s : string) :
  Py.startswith "[" p = true -> Py.startswith p s = true ->
  Py.startswith "[" s = true.
Proof.
  rewrite !startswith_bracket. unfold Py.startswith.
  destruct p as [|c p]; [discriminate|]. intros Hc.
  destruct s as [|d s]; cbn [String.prefix]; [discriminate|].
  destruct (Ascii.ascii_dec c d) as [<-|_]; [now intros _|discriminate].
Qed.

(** X1. A name is suggested exactly when it is the name of a property,
    its lower-case form starts with the lower-case form of the word, and
    either the word starts with a bracket or the name does not. *)
Theorem complete_suggestions (text word n : string) :
  In n (complete context text word)
  <-> (exists p, In p (properties (debug_info context)) /\ name p = n)
      /\ Py.startswith (Py.lower word) (Py.lower n) = true
      /\ (Py.startswith "[" (Py.lower word) = true
          \/ Py.startswith "[" n = false).
Proof.
  unfold complete.
  destruct (Py.startswith "[" (Py.lower word)) eqn:Eb; cbn [negb].
  - rewrite in_map_iff. split.
    + intros (p & <- & Hin). apply filter_In in Hin as [Hin Hp].
      split; [now exists p|]. split; [exact Hp|now left].
    + intros ((p & Hin & <-) & Hp & _). exists p. split; [reflexivity|].
      apply filter_In. now split.
  - rewrite filter_In, in_map_iff. split.
    + intros ((p & <- & Hin) & Hs). apply filter_In in Hin as [Hin Hp].
      split; [now exists p|]. split; [exact Hp|right].
      now apply negb_true_iff.
    + intros ((p & Hin & <-) & Hp & [Hw|Hs]); [discriminate|]. split.
      * exists p. split; [reflexivity|]. apply filter_In. now split.
      * now apply negb_true_iff.
Qed.

(** X2. A suggestion is a special property, one whose name starts with a
    bracket, exactly when the word typed starts with a bracket. *)
Theorem complete_special_iff_asked (text word n : string) :
  In n (complete context text word) ->
  Py.startswith "[" n = Py.startswith "[" word.
Proof.
  intros Hin. apply complete_suggestions in Hin as (_ & Hp & Hs).
  rewrite <- (startswith_bracket_lower word).
  destruct (Py.startswith "[" (Py.lower word)) eqn:Eb.
  - rewrite <- startswith_bracket_lower.
    exact (startswith_bracket_trans _ _ Eb Hp).
  - destruct Hs as [Hs|Hs]; [discriminate|exact Hs].
Qed.

(** X3. With nothing typed, the suggestions are the names of all the
    properties that are not special, in the order of the debug
    information. *)
Theorem complete_nothing_typed (text : string) :
  complete context text ""
  = filter (fun n => negb (Py.startswith "[" n))
           (map name (properties (debug_info context))).
Proof.
  unfold complete. cbn [Py.lower negb Py.startswith String.prefix].
  f_equal. f_equal.
  induction (properties (debug_info context)) as [|p ps IH]; [reflexivity|].
  cbn [filter]. rewrite prefix_empty. now f_equal.
Qed.
End CompleteFacts.

(** ** The flags and the arguments of [state] *)

Section StateArgumentsFacts.
Context {L : DSLLocationAPI} {U : Utils} {G : Gdb}.
Variable context : Context.
Import StateCommand.

Lemma mem_difference (c : ascii) (l : list ascii) (s : string) :
  Py.mem c (Py.difference l s) = negb (Py.contains c s) && Py.mem c l.
Proof. unfold Py.difference. apply PyFacts.mem_filter. Qed.

Lemma mem_In (c : ascii) (l : list ascii) : Py.mem c l = true <-> In c l.
Proof.
  unfold Py.mem. rewrite existsb_exists. split.
  - intros (d & Hin & E). apply Ascii.eqb_eq in E. now subst.
  - intros Hin. exists c. split; [exact Hin|apply Ascii.eqb_refl].
Qed.

(** The flags are all known exactly when no character of the token is
    outside [sf]. *)
Lemma difference_empty (fl s : string) :
  Py.difference (Py.char_set fl) s = []
  <-> (forall c, Py.contains c fl = true -> Py.contains c s = true).
Proof.
  split.
  - intros Hd c Hc. destruct (Py.contains c s) eqn:E; [reflexivity|].
    assert (Hm : Py.mem c (Py.difference (Py.char_set fl) s) = true)
      by now rewrite mem_difference, E, PyFacts.mem_char_set, Hc.
    rewrite Hd in Hm. discriminate.
  - intros Hall.
    destruct (Py.difference (Py.char_set fl) s) as [|c l] eqn:E;
      [reflexivity|].
    assert (Hm : Py.mem c (Py.difference (Py.char_set fl) s) = true)
      by (apply mem_In; rewrite E; now left).
    rewrite mem_difference, PyFacts.mem_char_set in Hm.
    apply andb_true_iff in Hm as [Hn Hc]. rewrite (Hall c Hc) in Hn.
    discriminate.
Qed.

Lemma startswith_slash (fl : string) : Py.startswith "/" (String "/" fl) = true.
Proof.
  unfold Py.startswith. cbn [String.prefix].
  destruct (Ascii.ascii_dec "/" "/") as [_|Hne]; [|congruence].
  apply prefix_empty.
Qed.

(** X4. A flags token with a character other than [s] and [f] ends the
    command: one line is printed, which lists characters of the token that
    are not flags, this one among them, and the state is not rendered. *)
Theorem state_unknown_flag (arg fl : string) (rest : list string)
        (c : ascii) (w : World) :
  Py.split arg = String "/" fl :: rest ->
  Py.contains c fl = true -> c <> "s"%char -> c <> "f"%char ->
  exists invalid,
    In c invalid
    /\ (forall d, In d invalid ->
                  Py.contains d fl = true /\ Py.contains d "sf" = false)
    /\ invoke context arg w
       = (Returned tt,
          say ("Invalid flags: "
                 ++ Py.join ", " (map (fun d => String d "") invalid))%string
              w).
Proof.
  intros Hs Hc Hns Hnf.
  exists (Py.difference (Py.char_set fl) "sf").
  assert (Hcs : Py.contains c "sf" = false).
  { cbn [Py.contains]. rewrite orb_false_r. apply orb_false_iff.
    split; now apply Ascii.eqb_neq. }
  assert (Hin : In c (Py.difference (Py.char_set fl) "sf")).
  { apply mem_In. now rewrite mem_difference, Hcs, PyFacts.mem_char_set, Hc. }
  split; [exact Hin|]. split.
  - intros d Hd. apply mem_In in Hd.
    rewrite mem_difference, PyFacts.mem_char_set in Hd.
    apply andb_true_iff in Hd as [Hn Hd]. split; [exact Hd|].
    now apply negb_true_iff.
  - unfold invoke. rewrite Hs, startswith_slash. cbn [Py.tail].
    destruct (Py.difference (Py.char_set fl) "sf"); [destruct Hin|].
    reflexivity.
Qed.

(** The printer depends on the flags through the presence of [f] and of
    [s] only. *)
Lemma printer_flags (fl1 fl2 : string) (v : option string) :
  Py.contains "f" fl1 = Py.contains "f" fl2 ->
  Py.contains "s" fl1 = Py.contains "s" fl2 ->
  printer context (Py.char_set fl1) v = printer context (Py.char_set fl2) v.
Proof.
  intros Hf Hs. unfold printer. now rewrite !PyFacts.mem_char_set, Hf, Hs.
Qed.

(** X5. The flags are a set: two flags tokens with the same characters,
    in whatever order and however many times each, give the same command
    when the characters are known flags. *)
Theorem state_flags_are_a_set (a1 a2 fl1 fl2 : string) (rest : list string) :
  Py.split a1 = String "/" fl1 :: rest ->
  Py.split a2 = String "/" fl2 :: rest ->
  (forall c, Py.contains c fl1 = Py.contains c fl2) ->
  Py.difference (Py.char_set fl1) "sf" = [] ->
  invoke context a1 = invoke context a2.
Proof.
  intros H1 H2 Hsame Hv1.
  assert (Hv2 : Py.difference (Py.char_set fl2) "sf" = []).
  { apply difference_empty. intros c Hc. rewrite <- Hsame in Hc.
    exact (proj1 (difference_empty fl1 "sf") Hv1 c Hc). }
  rewrite (invoke_flags context _ H1 Hv1), (invoke_flags context _ H2 Hv2).
  unfold after_flags. destruct (pop_var_name rest) as [v args].
  now rewrite (printer_flags fl1 fl2 v (Hsame "f"%char) (Hsame "s"%char)).
Qed.

(** Every command is the message about its flags, or goes on with some
    arguments and some flags. *)
Lemma invoke_shape (arg : string) :
  (exists msg, forall w, invoke context arg w = (Returned tt, say msg w))
  \/ (exists args flags, invoke context arg = after_flags context args flags).
Proof.
  unfold invoke. destruct (Py.split arg) as [|a0 rest].
  - right. now exists [], [].
  - destruct (Py.startswith "/" a0).
    + destruct (Py.difference (Py.char_set (Py.tail a0)) "sf").
      * right. now exists rest, (Py.char_set (Py.tail a0)).
      * left. eexists. intros w. reflexivity.
    + right. now exists (a0 :: rest), [].
Qed.

Lemma after_flags_world (args : list string) (flags : list ascii)
      (w : World) :
  exists pre text,
    after_flags context args flags w
    = (Returned tt,
       mkWorld (stdout w ++ pre ++ [Line text]) (stdin w) (breakpoints w))
    /\ (pre = [] \/ exists msg, pre = [Line msg])
    /\ text = StatePrinter.getvalue
                (StatePrinter._render
                   (printer context flags (fst (pop_var_name args))) []).
Proof.
  unfold after_flags. destruct args as [|a [|b rest]]; cbn [pop_var_name fst].
  - exists [], (StatePrinter.getvalue
                  (StatePrinter._render (printer context flags None) [])).
    split; [reflexivity|]. split; [now left|reflexivity].
  - exists [], (StatePrinter.getvalue
                  (StatePrinter._render (printer context flags (Some a)) [])).
    split; [reflexivity|]. split; [now left|reflexivity].
  - eexists [Line _], _. split; [|split; [right; eexists|]; reflexivity].
    unfold report_extra, bind, print, emit, StatePrinter.run, print, emit.
    cbn [stdout stdin breakpoints]. now rewrite <- app_assoc.
Qed.

(** X6. [state] only prints: whatever its argument, it returns, it leaves
    the breakpoints and the input as they were, and it prints one or two
    lines and no prompt. *)
Theorem state_only_prints (arg : string) (w : World) :
  exists out,
    invoke context arg w
    = (Returned tt, mkWorld (stdout w ++ out) (stdin w) (breakpoints w))
    /\ (1 <= List.length out <= 2)%nat
    /\ no_prompt out = true.
Proof.
  destruct (invoke_shape arg) as [(msg & Hm)|(args & flags & Ha)].
  - exists [Line msg]. rewrite Hm. split; [reflexivity|].
    split; [simpl; lia|reflexivity].
  - rewrite Ha.
    destruct (after_flags_world args flags w)
      as (pre & text & Hr & [->|(msg & ->)] & _); rewrite Hr.
    + exists [Line text]. split; [reflexivity|].
      split; [simpl; lia|reflexivity].
    + exists [Line msg; Line text]. split; [reflexivity|].
      split; [simpl; lia|reflexivity].
Qed.

(** Outside any property, what follows the flags prints the message
    about the arguments left over, if there are any, and the fixed
    text. *)
Lemma after_flags_outside (args : list string) (flags : list ascii)
      (w : World) :
  decode_state context = None ->
  after_flags context args flags w
  = (Returned tt,
     say (StatePrinter.getvalue ["Selected frame is not in a property."])
         (match List.tl args with
          | [] => w
          | extra =>
              say ("Invalid extra arguments: " ++ Py.join " " extra)%string w
          end)).
Proof.
  intros Hnone.
  assert (Hr : forall v,
             StatePrinter._render (printer context flags v) []
             = ["Selected frame is not in a property."]).
  { intros v. unfold printer, StatePrinter.init, StatePrinter._render.
    cbn [StatePrinter.state]. now rewrite Hnone. }
  unfold after_flags, StatePrinter.run.
  destruct args as [|a [|b rest]]; cbn [pop_var_name List.tl];
    rewrite Hr; reflexivity.
Qed.

(** X7. When the selected frame is not in a property, the command says so
    whatever the filter and the flags: with a flags token that holds known
    flags only, and without a flags token, it prints the fixed text, after
    the message about the arguments left over if there are any, and
    nothing of the frame is rendered. *)
Theorem state_outside_any_property (arg : string) (w : World) :
  decode_state context = None ->
  let said (extra : list string) :=
    say (StatePrinter.getvalue ["Selected frame is not in a property."])
        (match extra with
         | [] => w
         | _ =>
             say ("Invalid extra arguments: " ++ Py.join " " extra)%string w
         end) in
  (forall fl rest,
     Py.split arg = String "/" fl :: rest ->
     Py.difference (Py.char_set fl) "sf" = [] ->
     invoke context arg w = (Returned tt, said (List.tl rest)))
  /\ (forall args,
        Py.split arg = args ->
        (forall a0 r, args = a0 :: r -> Py.startswith "/" a0 = false) ->
        invoke context arg w = (Returned tt, said (List.tl args))).
Proof.
  intros Hnone said. split.
  - intros fl rest Hs Hd.
    rewrite (invoke_flags context _ Hs Hd).
    rewrite (after_flags_outside rest (Py.char_set fl) w Hnone).
    unfold said. now destruct (List.tl rest).
  - intros args Hs Hno. unfold invoke. rewrite Hs.
    destruct args as [|a0 r].
    + now rewrite (after_flags_outside [] [] w Hnone).
    + rewrite (Hno a0 r eq_refl).
      rewrite (after_flags_outside (a0 :: r) [] w Hnone).
      unfold said. now destruct (List.tl (a0 :: r)).
Qed.
End StateArgumentsFacts.

(** ** What the printer writes *)

Section PrinterFacts.
Context {L : DSLLocationAPI} {U : Utils} {G : Gdb}.
Import StatePrinter.

Lemma string_length_append (a b : string) :
  String.length (a ++ b)%string = (String.length a + String.length b)%nat.
Proof. induction a as [|c a IH]; simpl; [reflexivity|now rewrite IH]. Qed.

Lemma string_append_nil_r (a : string) : (a ++ "")%string = a.
Proof. induction a as [|c a IH]; simpl; [reflexivity|now rewrite IH]. Qed.

Lemma string_append_assoc (a b c : string) :
  ((a ++ b) ++ c)%string = (a ++ (b ++ c))%string.
Proof. induction a as [|d a IH]; simpl; [reflexivity|now rewrite IH]. Qed.

Lemma substring_0_length (n : nat) :
  forall s, (n <= String.length s)%nat ->
            String.length (String.substring 0 n s) = n.
Proof.
  induction n as [|k IH]; intros s Hn.
  - now destruct s.
  - destruct s as [|c s]; simpl in *; [lia|]. rewrite IH; lia.
Qed.

(** X8. With the ellipsis enabled, the image of a value is never longer
    than 53 characters, and it has 53 exactly when the text was cut. *)
Theorem value_image_width (self : t) (v : string) :
  with_ellipsis self = true ->
  (String.length (value_image self v) <= 53)%nat
  /\ ((50 < String.length (frame_read_var (Py.lower v)))%nat ->
      String.length (value_image self v) = 53%nat).
Proof.
  intros He. unfold value_image, ellipsis_limit. rewrite He. cbn [andb].
  destruct (Nat.ltb_spec 50 (String.length (frame_read_var (Py.lower v))))
    as [Hlt|Hge].
  - assert (Hl : String.length
                   (Py.format [Py.take 50 (frame_read_var (Py.lower v)); "..."])
                 = 53%nat).
    { change (Py.format [?a; ?b]) with (a ++ b)%string.
      rewrite string_length_append. unfold Py.take.
      rewrite substring_0_length; [reflexivity|lia]. }
    rewrite Hl. split; [lia|reflexivity].
  - split; lia.
Qed.

Lemma concat_app (l1 l2 : list string) :
  String.concat "" (l1 ++ l2)
  = (String.concat "" l1 ++ String.concat "" l2)%string.
Proof.
  induction l1 as [|x l1 IH]; [reflexivity|].
  destruct l1 as [|y l1].
  - cbn [app String.concat]. destruct l2; [now rewrite string_append_nil_r|].
    reflexivity.
  - change ((x :: y :: l1) ++ l2) with (x :: ((y :: l1) ++ l2)).
    change (String.concat "" (x :: (y :: l1) ++ l2))
      with (x ++ String.concat "" ((y :: l1) ++ l2))%string.
    rewrite IH.
    change (String.concat "" (x :: y :: l1))
      with (x ++ String.concat "" (y :: l1))%string.
    now rewrite string_append_assoc.
Qed.

Lemma getvalue_app (a b : list string) :
  getvalue (a ++ b) = (getvalue a ++ getvalue b)%string.
Proof. unfold getvalue. now rewrite map_app, concat_app. Qed.

(** [_render] adds its lines after those that [sio] holds. *)
Lemma _render_appends (self : t) (sio : list string) :
  _render self sio = sio ++ _render self [].
Proof.
  unfold _render. destruct (state self) as [st|]; [|reflexivity].
  destruct (filter_name self) as [v|].
  - destruct (lookup_in_scopes v (scopes st)); reflexivity.
  - rewrite !render_scopes. unfold prn.
    destruct (dsl_sloc (property st)), (in_memoization_lookup st);
      cbn [app]; rewrite <- ?app_assoc; reflexivity.
Qed.

End PrinterFacts.

Section BufferFacts.
Context {L : DSLLocationAPI} {U : Utils} {G : Gdb}.
Import StatePrinter.

(** [run] on a fresh printer is [run_with] on the empty buffer. *)
Lemma run_fresh (self : t) (w : World) :
  run self w
  = (Returned tt, snd (run_with self [] w))
  /\ fst (run_with self [] w) = Returned (_render self []).
Proof. split; reflexivity. Qed.

(** X9. The buffer of a printer is never emptied: [run] and [render] add
    their rendering after what the buffer holds and give out all of it.
    So [render] after [run] on the same printer returns the text that
    [run] printed, followed by the rendering without colours. *)
Theorem render_after_run {N : NoColors} (self : t) (sio : list string)
        (w : World) :
  run_with self sio w
  = (Returned (sio ++ _render self []),
     say (getvalue sio ++ getvalue (_render self []))%string w)
  /\ render self sio
     = ((getvalue sio ++ fst (render self []))%string,
        sio ++ snd (render self []))
  /\ fst (render self (_render self []))
     = (getvalue (_render self []) ++ fst (render self []))%string.
Proof.
  assert (Hr : forall b,
             render self b
             = ((getvalue b ++ fst (render self []))%string,
                b ++ snd (render self []))).
  { intros b. unfold render. cbn [fst snd].
    rewrite (_render_appends (U := no_colors) self b).
    now rewrite getvalue_app. }
  split; [|split].
  - unfold run_with, bind, print, emit, ret, say.
    now rewrite (_render_appends self sio), getvalue_app.
  - apply Hr.
  - now rewrite Hr.
Qed.
End BufferFacts.

(** ** The matches of a source location *)

Section CollectFacts.
Context {L : DSLLocationAPI} {G : Gdb}.
Variable context : Context.
Import BreakCommand.

Lemma process_event_appends (p : Property) (q : DSLLocation) (e : Event) :
  forall acc,
    process_event p q e acc = acc ++ flat_map (match_of p q) (expr_starts e).
Proof.
  induction e as [evs IH|es|] using Event_nested_ind; intros acc.
  - cbn [process_event expr_starts]. revert acc.
    induction IH as [|e evs He _ IHevs]; intros acc.
    + cbn. now rewrite app_nil_r.
    + cbn [fold_left flat_map]. rewrite IHevs, He, flat_map_app.
      now rewrite app_assoc.
  - cbn [process_event expr_starts flat_map]. unfold match_of.
    destruct (es_dsl_sloc es) as [loc|]; [|now rewrite app_nil_r].
    destruct (DSLLocation_matches loc q); cbn [app];
      now rewrite ?app_nil_r.
  - cbn. now rewrite app_nil_r.
Qed.

Lemma process_scope_appends (p : Property) (q : DSLLocation)
      (evs : list Event) :
  forall acc,
    process_scope p q evs acc
    = acc ++ flat_map (match_of p q) (flat_map expr_starts evs).
Proof.
  unfold process_scope. induction evs as [|e evs IH]; intros acc.
  - cbn. now rewrite app_nil_r.
  - cbn [fold_left flat_map].
    now rewrite IH, process_event_appends, flat_map_app, app_assoc.
Qed.

(** X10. The matches of a location are found property after property, in
    the order of the debug information, and inside a property in the order
    in which a walk of its events meets the [ExprStart] events, nested
    scopes included; a match is made of each [ExprStart] that has a
    location which matches the one asked for, and of no other event. *)
Theorem collect_matches_in_walk_order (q : DSLLocation) :
  collect_matches context q
  = flat_map (fun p => flat_map (match_of p q)
                                (flat_map expr_starts (events p)))
             (properties (debug_info context)).
Proof.
  unfold collect_matches.
  assert (Hacc : forall ps acc,
             fold_left (fun acc p => process_scope p q (events p) acc) ps acc
             = acc ++ flat_map
                        (fun p => flat_map (match_of p q)
                                    (flat_map expr_starts (events p))) ps).
  { induction ps as [|p ps IH]; intros acc.
    - cbn. now rewrite app_nil_r.
    - cbn [fold_left flat_map].
      now rewrite IH, process_scope_appends, app_assoc. }
  apply Hacc.
Qed.

(** X11. Every match collected belongs to a property of the debug
    information, its location matches the one asked for, and its line is
    the line of an [ExprStart] of that property that carries this
    location. *)
Theorem collect_matches_sound (q : DSLLocation) (m : Match) :
  In m (collect_matches context q) ->
  In (prop m) (properties (debug_info context))
  /\ DSLLocation_matches (m_dsl_sloc m) q = true
  /\ exists es,
       In es (flat_map expr_starts (events (prop m)))
       /\ es_dsl_sloc es = Some (m_dsl_sloc m)
       /\ es_line_no es = line_no m.
Proof.
  rewrite collect_matches_in_walk_order, in_flat_map.
  intros (p & Hp & Hm). apply in_flat_map in Hm as (es & Hes & Hm).
  unfold match_of in Hm. destruct (es_dsl_sloc es) as [loc|] eqn:El;
    [|destruct Hm].
  destruct (DSLLocation_matches loc q) eqn:Em; [|destruct Hm].
  destruct Hm as [<-|[]]. cbn [prop m_dsl_sloc line_no].
  split; [exact Hp|]. split; [exact Em|]. now exists es.
Qed.

Lemma match_lines_nth (idx_width : nat) (ms : list Match) :
  forall (k : nat) (i : Z) (m : Match),
    nth_error ms k = Some m ->
    nth_error (match_lines context idx_width i ms) (2 * k)
    = Some (Line (Py.rjust idx_width (idx_fmt (i + Z.of_nat k)) ++ "In "
                    ++ name (prop m) ++ ", "
                    ++ DSLLocation_str (m_dsl_sloc m))%string)
    /\ nth_error (match_lines context idx_width i ms) (2 * k + 1)
       = Some (Line (Py.spaces idx_width ++ "at "
                       ++ filename (debug_info context) ++ ":"
                       ++ Py.str_int (line_no m))%string).
Proof.
  induction ms as [|m0 ms IH]; intros k i m Hk; [now destruct k|].
  destruct k as [|k].
  - injection Hk as ->. rewrite Z.add_0_r. split; reflexivity.
  - cbn [nth_error] in Hk. cbn [match_lines].
    replace (2 * S k)%nat with (S (S (2 * k))) by lia.
    replace (S (S (2 * k)) + 1)%nat with (S (S (2 * k + 1))) by lia.
    cbn [nth_error].
    replace (i + Z.of_nat (S k))%Z with (i + 1 + Z.of_nat k)%Z by lia.
    exact (IH k (i + 1)%Z m Hk).
Qed.

(** X12. In the list shown to the user, the match found in position [k]
    (from 0) has the number [k + 1] on its first line, with the name of
    its property and its location, and its generated line on the next
    line. *)
Theorem listing_numbers (idx_width : nat) (ms : list Match) (k : nat)
        (m : Match) (w : World) :
  nth_error ms k = Some m ->
  exists out,
    print_matches context idx_width 1 ms w
    = (Returned tt, mkWorld (stdout w ++ out) (stdin w) (breakpoints w))
    /\ List.length out = (2 * List.length ms)%nat
    /\ nth_error out (2 * k)
       = Some (Line (Py.rjust idx_width (idx_fmt (Z.of_nat k + 1)) ++ "In "
                       ++ name (prop m) ++ ", "
                       ++ DSLLocation_str (m_dsl_sloc m))%string)
    /\ nth_error out (2 * k + 1)
       = Some (Line (Py.spaces idx_width ++ "at "
                       ++ filename (debug_info context) ++ ":"
                       ++ Py.str_int (line_no m))%string).
Proof.
  intros Hk. exists (match_lines context idx_width 1 ms).
  split; [apply print_matches_lines|]. split.
  - clear Hk. generalize 1%Z.
    induction ms as [|m0 ms' IH]; intros i; [reflexivity|].
    cbn [match_lines List.length]. rewrite IH. lia.
  - rewrite (Z.add_comm (Z.of_nat k) 1).
    exact (match_lines_nth idx_width ms k 1%Z Hk).
Qed.
End CollectFacts.

(** ** What [break] does to the host *)

Section BreakFrameFacts.
Context {L : DSLLocationAPI} {G : Gdb}.
Variable context : Context.
Import BreakCommand.

Lemma set_condition_last (l : list Breakpoint) (b : Breakpoint)
      (c : string) :
  set_condition (l ++ [b]) (List.length l) c
  = l ++ [mkBreakpoint (spec b) (Some c)].
Proof. induction l as [|a l IH]; cbn; [reflexivity|now rewrite IH]. Qed.

Lemma blank_lstrip (s : string) : blank s = true -> Py.lstrip s = "".
Proof.
  induction s as [|c s IH]; [reflexivity|]. cbn [blank Py.lstrip].
  destruct (Py.isspace c); [exact IH|discriminate].
Qed.

(** X13. A [break] without a location, or with white space only, is told
    that the specification is missing; nothing else happens. *)
Theorem break_blank_argument (arg : string) (w : World) :
  blank arg = true ->
  invoke context arg w
  = (Returned tt, say "Breakpoint specification missing" w).
Proof.
  intros Hb. unfold invoke, argv_of, Py.strip.
  now rewrite (blank_lstrip arg Hb).
Qed.

(** X14. Attaching the condition of [break NAME if COND], when [NAME] is
    the name of a property with a body: if the host accepts the condition,
    the one breakpoint created carries it and nothing is printed; if the
    host refuses it, its message is printed and the breakpoint stays, with
    no condition. *)
Theorem break_with_condition (q cond : string) (p : Property)
        (start : Z) (w : World) :
  Py.contains ":" q = false ->
  resolved context q = Some p -> body_start p = Some start ->
  cond <> EmptyString ->
  let at_start :=
    (filename (debug_info context) ++ ":" ++ Py.str_int start)%string in
  break_at context q (Some cond) w
  = match condition_error cond with
    | None =>
        (Returned tt,
         mkWorld (stdout w) (stdin w)
                 (breakpoints w ++ [mkBreakpoint at_start (Some cond)]))
    | Some msg => (Returned tt, say msg (with_breakpoint at_start w))
    end.
Proof.
  intros Hc Hr Hs Hne at_start. unfold break_at, bind. rewrite Hc.
  rewrite break_on_property_resolved, Hr, Hs.
  destruct cond as [|c0 cond]; [congruence|].
  unfold set_bp_condition.
  destruct (condition_error (String c0 cond)); [reflexivity|].
  unfold with_breakpoint. cbn [stdout stdin breakpoints].
  now rewrite set_condition_last.
Qed.

Lemma select_frame (ms : list Match) (c : Z) (w : World) :
  select context ms c w = (Raised (IndexError "list index out of range"), w)
  \/ exists s,
       select context ms c w
       = (Returned (Some (List.length (breakpoints w))), with_breakpoint s w).
Proof.
  unfold select. destruct (Py.index ms c) as [m|]; [|now left].
  right. eexists. reflexivity.
Qed.

(** The resolution of a location creates nothing, or creates one
    breakpoint without condition and returns its handle. *)
Lemma resolve_frame (spec : string) (w : World) :
  (exists r w',
     resolve context spec w = (r, w')
     /\ breakpoints w' = breakpoints w
     /\ (r = Returned None \/ exists e, r = Raised e))
  \/ (exists s w',
        resolve context spec w
        = (Returned (Some (List.length (breakpoints w))), w')
        /\ breakpoints w' = breakpoints w ++ [mkBreakpoint s None]).
Proof.
  unfold resolve. destruct (Py.contains ":" spec).
  - rewrite break_on_dsl_sloc_cases.
    set (q := DSLLocation_parse spec).
    set (ms := collect_matches context q).
    assert (Hsel : forall c,
               (exists r w',
                  select context ms c (asked context q ms w) = (r, w')
                  /\ breakpoints w' = breakpoints w
                  /\ (r = Returned None \/ exists e, r = Raised e))
               \/ (exists s w',
                     select context ms c (asked context q ms w)
                     = (Returned (Some (List.length (breakpoints w))), w')
                     /\ breakpoints w'
                        = breakpoints w ++ [mkBreakpoint s None])).
    { intros c.
      destruct (select_frame ms c (asked context q ms w)) as [E|(s & E)];
        rewrite E.
      - left. do 2 eexists. split; [reflexivity|].
        split; [reflexivity|right; eexists; reflexivity].
      - right. do 2 eexists. split; reflexivity. }
    destruct ms as [|m1 [|m2 ms']] eqn:Ems.
    + left. do 2 eexists. split; [reflexivity|]. split; [reflexivity|now left].
    + right. do 2 eexists. split; reflexivity.
    + rewrite <- Ems in *. clear Ems.
      destruct (stdin w) as [|choice rest].
      * left. do 2 eexists. split; [reflexivity|].
        split; [reflexivity|now left].
      * destruct choice as [|c0 choice]; [apply Hsel|].
        destruct (Py.int (String c0 choice)) as [c|].
        -- destruct ((c <? 1)%Z || (Z.of_nat (List.length ms) <? c)%Z);
             [|apply Hsel].
           left. do 2 eexists. split; [reflexivity|].
           split; [reflexivity|now left].
        -- left. do 2 eexists. split; [reflexivity|].
           split; [reflexivity|now left].
  - rewrite break_on_property_resolved.
    destruct (resolved context spec) as [p|].
    + destruct (body_start p).
      * right. do 2 eexists. split; reflexivity.
      * left. do 2 eexists. split; [reflexivity|].
        split; [reflexivity|now left].
    + left. do 2 eexists. split; [reflexivity|]. split; [reflexivity|now left].
Qed.

Lemma break_at_frame (spec : string) (cond : option string) (w : World) :
  at_most_one_more w (snd (break_at context spec cond w)).
Proof.
  unfold break_at, bind. fold (resolve context spec).
  destruct (resolve_frame spec w)
    as [(r & w' & -> & Hb & [->|(e & ->)])|(s & w' & -> & Hb)].
  - left. destruct cond as [[|c0 c]|]; exact Hb.
  - left. exact Hb.
  - destruct cond as [[|c0 c]|]; cbn [snd].
    + right. eexists. exact Hb.
    + unfold set_bp_condition.
      destruct (condition_error (String c0 c)); cbn [snd breakpoints].
      * right. eexists. exact Hb.
      * right. rewrite Hb, set_condition_last. eexists. reflexivity.
    + right. eexists. exact Hb.
Qed.

(** X15. One [break] creates at most one breakpoint, and leaves the
    breakpoints that exist as they are: after the command, whatever the
    argument and the answer at the prompt, and also when an exception
    leaves the command, the breakpoints of the host are those of before,
    or those of before and one more after them. *)
Theorem break_at_most_one_breakpoint (arg : string) (w : World) :
  at_most_one_more w (snd (invoke context arg w)).
Proof.
  unfold invoke. destruct (argv_of arg) as [|a [|b [|c [|d r]]]];
    try (left; reflexivity).
  - apply break_at_frame.
  - destruct (negb (b =? "if")%string); [left; reflexivity|].
    apply break_at_frame.
Qed.
End BreakFrameFacts.

(** ** The prompt of [break] by source location *)

Section PromptFacts.
Context {L : DSLLocationAPI} {G : Gdb}.
Variable context : Context.
Import BreakCommand.

(** X16. With two matches or more, an answer that is refused creates no
    breakpoint: at the end of the input, on an answer that is not a number
    and on a number below 1 or above the number of matches, the command
    prints its message after the question and returns without a
    breakpoint; one line of input, at most, has been read. *)
Theorem refused_answers (s : string) (w : World) :
  let q := DSLLocation_parse s in
  let ms := collect_matches context q in
  let n := Z.of_nat (List.length ms) in
  (2 <= List.length ms)%nat ->
  (stdin w = [] ->
   break_on_dsl_sloc context s w
   = (Returned None,
      say "Aborting: no breakpoint created" (asked context q ms w)))
  /\ (forall choice rest,
        stdin w = choice :: rest -> choice <> EmptyString ->
        Py.int choice = None ->
        break_on_dsl_sloc context s w
        = (Returned None,
           say ("Invalid index choice: " ++ choice)%string
               (asked context q ms w)))
  /\ (forall choice rest c,
        stdin w = choice :: rest -> choice <> EmptyString ->
        Py.int choice = Some c -> (c < 1 \/ n < c)%Z ->
        break_on_dsl_sloc context s w
        = (Returned None,
           say ("Choice must be in range 1-" ++ Py.str_int n)%string
               (asked context q ms w)))
  /\ breakpoints (asked context q ms w) = breakpoints w
  /\ stdin (asked context q ms w) = List.tl (stdin w).
Proof.
  intros q ms n Hlen. rewrite break_on_dsl_sloc_cases. fold q. fold ms.
  fold n. destruct ms as [|m1 [|m2 ms']] eqn:E; cbn [List.length] in Hlen;
    try lia.
  rewrite <- E. split; [|split; [|split; [|split; reflexivity]]].
  - intros ->. reflexivity.
  - intros choice rest -> Hne Hi. destruct choice; [congruence|].
    now rewrite Hi.
  - intros choice rest c -> Hne Hi Hc. destruct choice; [congruence|].
    rewrite Hi.
    assert (Hb : ((c <? 1)%Z || (n <? c)%Z) = true).
    { apply orb_true_iff. destruct Hc; [left|right]; now apply Z.ltb_lt. }
    now rewrite Hb.
Qed.

(** X17. With one match or none there is no question: nothing is read
    from the input and no prompt is shown; one match gives its breakpoint
    at once, on its generated line, and no match gives the message [No
    match for] and no breakpoint. *)
Theorem no_question_below_two_matches (s : string) (w : World) :
  let q := DSLLocation_parse s in
  (forall m, collect_matches context q = [m] ->
     break_on_dsl_sloc context s w
     = (Returned (Some (List.length (breakpoints w))),
        with_breakpoint
          (filename (debug_info context) ++ ":" ++ Py.str_int (line_no m))%string
          w))
  /\ (collect_matches context q = [] ->
      break_on_dsl_sloc context s w
      = (Returned None,
         say ("No match for " ++ DSLLocation_str q)%string w)).
Proof.
  intros q. split.
  - intros m Hm. rewrite break_on_dsl_sloc_cases. fold q. now rewrite Hm.
  - intros Hm. rewrite break_on_dsl_sloc_cases. fold q. now rewrite Hm.
Qed.

(** X18. When the names of several properties differ in letter case
    only, [break] by name settles on the first of them in the order of
    the debug information. *)
Theorem break_on_first_property (q : string) (pre post : list Property)
        (p : Property) :
  properties (debug_info context) = pre ++ p :: post ->
  Py.lower (name p) = Py.lower q ->
  (forall p', In p' pre -> Py.lower (name p') <> Py.lower q) ->
  resolved context q = Some p.
Proof.
  intros Hps Hp Hpre. unfold resolved. rewrite Hps. clear Hps.
  induction pre as [|a pre IH]; cbn [app find_property].
  - now rewrite (proj2 (String.eqb_eq _ _) Hp).
  - destruct (String.eqb_spec (Py.lower (name a)) (Py.lower q)) as [E|_].
    + exfalso. apply (Hpre a); [now left|exact E].
    + apply IH. intros p' Hin. apply Hpre. now right.
Qed.
End PromptFacts.

(** ** The defaults of [state] *)

Section StateDefaultsFacts.
Context {L : DSLLocationAPI} {U : Utils} {G : Gdb}.
Variable context : Context.
Import StateCommand.

Lemma blank_split (arg : string) : blank arg = true -> Py.split arg = [].
Proof.
  intros Hb. unfold Py.split.
  destruct (String.length arg); cbn [Py.split_whitespace];
    now rewrite (blank_lstrip arg Hb).
Qed.

(** X19. [state] without argument, with white space only, or with a
    flags token that holds no flag, prints the whole state with the
    ellipsis enabled and without the names of the generated variables. *)
Theorem state_defaults (arg : string) :
  blank arg = true \/ Py.split arg = ["/"] ->
  invoke context arg
  = StatePrinter.run (StatePrinter.init context true false None).
Proof.
  intros [Hb|Hs]; unfold invoke.
  - rewrite (blank_split arg Hb). reflexivity.
  - rewrite Hs. cbn [Py.startswith String.prefix Py.tail Py.char_set].
    destruct (Ascii.ascii_dec "/" "/") as [_|Hne]; [|congruence].
    reflexivity.
Qed.
End StateDefaultsFacts.

(** ** The columns of the list of matches *)

Section AlignmentFacts.
Context {L : DSLLocationAPI} {G : Gdb}.
Import BreakCommand.

Lemma string_of_uint_length (d : Decimal.uint) :
  String.length (NilEmpty.string_of_uint d) = Decimal.nb_digits d.
Proof. induction d; simpl; now rewrite ?IHd. Qed.

Lemma str_int_pos_length (p : positive) :
  String.length (Py.str_int (Zpos p))
  = Decimal.nb_digits (Pos.to_little_uint p).
Proof.
  unfold Py.str_int. cbn [Z.to_int NilZero.string_of_int].
  unfold NilZero.string_of_uint.
  pose proof (DecimalPos.Unsigned.to_uint_nonnil p) as Hn.
  rewrite <- (DecimalFacts.nb_digits_rev (Pos.to_little_uint p)).
  change (Decimal.rev (Pos.to_little_uint p)) with (Pos.to_uint p).
  destruct (Pos.to_uint p); [congruence|..]; apply string_of_uint_length.
Qed.

Lemma nb_digits_succ (d : Decimal.uint) :
  (Decimal.nb_digits d <= Decimal.nb_digits (Decimal.Little.succ d))%nat.
Proof. induction d; simpl; lia. Qed.

(** A larger number has no fewer digits. *)
Lemma nb_digits_monotone (n m : N) :
  (n <= m)%N ->
  (Decimal.nb_digits (DecimalPos.Unsigned.to_lu n)
   <= Decimal.nb_digits (DecimalPos.Unsigned.to_lu m))%nat.
Proof.
  induction m as [|m IH] using N.peano_ind; intros Hle.
  - assert (n = 0%N) as -> by lia. lia.
  - destruct (N.eq_dec n (N.succ m)) as [->|Hne]; [lia|].
    rewrite DecimalPos.Unsigned.to_lu_succ.
    pose proof (nb_digits_succ (DecimalPos.Unsigned.to_lu m)).
    assert (Hnm : (n <= m)%N) by lia. specialize (IH Hnm). lia.
Qed.

Lemma str_int_length_monotone (i n : Z) :
  (1 <= i <= n)%Z ->
  (String.length (Py.str_int i) <= String.length (Py.str_int n))%nat.
Proof.
  intros [Hi Hn]. destruct i as [|p|p]; try lia.
  destruct n as [|q|q]; try lia.
  rewrite !str_int_pos_length.
  apply (@nb_digits_monotone (Npos p) (Npos q)). lia.
Qed.

Lemma spaces_length (n : nat) : String.length (Py.spaces n) = n.
Proof. induction n as [|k IH]; simpl; [reflexivity|now rewrite IH]. Qed.

Lemma idx_fmt_length (i : Z) :
  String.length (idx_fmt i) = (String.length (Py.str_int i) + 3)%nat.
Proof.
  unfold idx_fmt.
  change (Py.format ["["; ?a; "] "]) with ("[" ++ (a ++ "] "))%string.
  rewrite !string_length_append. simpl. lia.
Qed.

(** X20. The list of matches is aligned: the number of every match, from
    1 to the number of matches, is put in brackets and justified to the
    right in a column as wide as the last one, and the second line of a
    match is indented by the same width. *)
Theorem listing_aligned (ms : list Match) (i : Z) :
  (1 <= i <= Z.of_nat (List.length ms))%Z ->
  let idx_width := String.length (idx_fmt (Z.of_nat (List.length ms))) in
  String.length (Py.rjust idx_width (idx_fmt i)) = idx_width
  /\ String.length (Py.spaces idx_width) = idx_width.
Proof.
  intros Hi idx_width. split; [|apply spaces_length].
  unfold Py.rjust. rewrite string_length_append, spaces_length.
  pose proof (str_int_length_monotone Hi) as Hm.
  unfold idx_width in *. rewrite !idx_fmt_length in *. lia.
Qed.
End AlignmentFacts.

(** ** The further properties at work on the in-memory host *)

Section MoreWitnesses.
Import Fake.

Lemma complete_special_iff_asked_witness :
  In "[dispatcher]Foo.p_one"
     (BreakCommand.complete MoreFake.context "break [DISP" "[DISP")
  /\ Py.startswith "[" "[dispatcher]Foo.p_one" = Py.startswith "[" "[DISP".
Proof.
  assert (Hin : In "[dispatcher]Foo.p_one"
                   (BreakCommand.complete MoreFake.context
                      "break [DISP" "[DISP"))
    by (now left).
  split; [exact Hin|].
  exact (@complete_special_iff_asked locations MoreFake.context
           "break [DISP" "[DISP" "[dispatcher]Foo.p_one" Hin).
Defined.

Lemma state_unknown_flag_witness :
  Py.split "/sq x" = ["/sq"; "x"]
  /\ exists invalid,
       In "q"%char invalid
       /\ (forall d, In d invalid ->
                     Py.contains d "sq" = true /\ Py.contains d "sf" = false)
       /\ StateCommand.invoke context "/sq x" (world [])
          = (Returned tt,
             say ("Invalid flags: "
                    ++ Py.join ", " (map (fun d => String d "") invalid))%string
                 (world [])).
Proof.
  split; [reflexivity|].
  apply (@state_unknown_flag locations utils gdb context "/sq x" "sq" ["x"]
           "q"%char (world []));
    [reflexivity|reflexivity|discriminate|discriminate].
Defined.

Lemma string_contains_same_sf_fsf (c : ascii) :
  Py.contains c "sf" = Py.contains c "fsf".
Proof.
  cbn [Py.contains].
  destruct (Ascii.eqb c "s"), (Ascii.eqb c "f"); reflexivity.
Qed.

Lemma state_flags_are_a_set_witness :
  Py.difference (Py.char_set "sf") "sf" = []
  /\ StateCommand.invoke context "/sf y" = StateCommand.invoke context "/fsf y".
Proof.
  split; [reflexivity|].
  apply (@state_flags_are_a_set locations utils gdb context
           "/sf y" "/fsf y" "sf" "fsf" ["y"]);
    [reflexivity|reflexivity|exact string_contains_same_sf_fsf|reflexivity].
Defined.

Lemma state_outside_any_property_witness :
  decode_state MoreFake.outside = None
  /\ Py.split "/f x more" = ["/f"; "x"; "more"]
  /\ StateCommand.invoke MoreFake.outside "/f x more" (world [])
     = (Returned tt,
        mkWorld
          [Line "Invalid extra arguments: more";
           Line (StatePrinter.getvalue
                   ["Selected frame is not in a property."])] [] [])
  /\ StateCommand.invoke MoreFake.outside "y" (world [])
     = (Returned tt,
        mkWorld
          [Line (StatePrinter.getvalue
                   ["Selected frame is not in a property."])] [] []).
Proof.
  split; [reflexivity|]. split; [reflexivity|]. split.
  - exact (proj1 (@state_outside_any_property locations utils gdb
                    MoreFake.outside "/f x more" (world []) eq_refl)
                 "f" ["x"; "more"] eq_refl eq_refl).
  - apply (proj2 (@state_outside_any_property locations utils gdb
                    MoreFake.outside "y" (world []) eq_refl)
                 ["y"] eq_refl).
    intros a0 r [= <- <-]. reflexivity.
Defined.

Lemma value_image_width_witness :
  StatePrinter.with_ellipsis printer = true
  /\ (String.length (StatePrinter.value_image printer "Y_2") <= 53)%nat.
Proof.
  split; [reflexivity|].
  exact (proj1 (@value_image_width locations gdb printer "Y_2" eq_refl)).
Defined.

Lemma collect_matches_sound_witness :
  In (BreakCommand.mkMatch p2 ("spec.py", 10%Z) 300)
     (BreakCommand.collect_matches context (DSLLocation_parse "spec.py:10"))
  /\ In p2 (properties (debug_info context)).
Proof.
  assert (Hin : In (BreakCommand.mkMatch p2 ("spec.py", 10%Z) 300)
                   (BreakCommand.collect_matches context
                      (DSLLocation_parse "spec.py:10")))
    by (right; right; now left).
  split; [exact Hin|].
  exact (proj1 (@collect_matches_sound locations context
                  (DSLLocation_parse "spec.py:10") _ Hin)).
Defined.

Lemma listing_numbers_witness :
  nth_error MoreFake.matches 2
  = Some (BreakCommand.mkMatch p2 ("spec.py", 10%Z) 300)
  /\ exists out,
       BreakCommand.print_matches context 4 1 MoreFake.matches (world [])
       = (Returned tt, mkWorld (stdout (world []) ++ out) [] [])
       /\ List.length out = 6%nat
       /\ nth_error out 4 = Some (Line "[3] In Bar.p_two, spec.py:10")
       /\ nth_error out 5 = Some (Line "    at foo-impl.adb:300").
Proof.
  split; [reflexivity|].
  exact (@listing_numbers locations context 4 MoreFake.matches 2
           (BreakCommand.mkMatch p2 ("spec.py", 10%Z) 300) (world [])
           eq_refl).
Defined.

Lemma break_blank_argument_witness :
  blank "   " = true
  /\ BreakCommand.invoke context "   " (world [])
     = (Returned tt, say "Breakpoint specification missing" (world [])).
Proof.
  split; [reflexivity|].
  exact (@break_blank_argument locations gdb context "   " (world [])
           eq_refl).
Defined.

Lemma break_with_condition_witness :
  resolved context "foo.p_one" = Some p1
  /\ BreakCommand.break_at context "foo.p_one" (Some "x > 1") (world [])
     = (Returned tt,
        mkWorld [] [] [mkBreakpoint "foo-impl.adb:90" (Some "x > 1")])
  /\ BreakCommand.break_at context "foo.p_one" (Some "bogus(") (world [])
     = (Returned tt,
        mkWorld [Line "A syntax error in expression."] [] [bp "90"]).
Proof.
  split; [reflexivity|]. split.
  - exact (@break_with_condition locations gdb context "foo.p_one" "x > 1"
             p1 90%Z (world []) eq_refl eq_refl eq_refl
             ltac:(discriminate)).
  - exact (@break_with_condition locations gdb context "foo.p_one" "bogus("
             p1 90%Z (world []) eq_refl eq_refl eq_refl
             ltac:(discriminate)).
Defined.

Lemma refused_answers_witness :
  (2 <= List.length MoreFake.matches)%nat
  /\ breakpoints
       (snd (BreakCommand.break_on_dsl_sloc context "spec.py:10"
               (world ["7"])))
     = []
  /\ fst (BreakCommand.break_on_dsl_sloc context "spec.py:10" (world ["7"]))
     = Returned None.
Proof.
  assert (Hlen : (2 <= List.length MoreFake.matches)%nat)
    by (vm_compute; lia).
  split; [exact Hlen|].
  rewrite (proj1 (proj2 (proj2 (@refused_answers locations context
                                  "spec.py:10" (world ["7"]) Hlen)))
                 "7" [] 7%Z eq_refl ltac:(discriminate) eq_refl
                 ltac:(right; vm_compute; reflexivity)).
  split; reflexivity.
Defined.

Lemma no_question_below_two_matches_witness :
  BreakCommand.break_on_dsl_sloc context "spec.py:20" (world ["1"])
  = (Returned (Some 0%nat), mkWorld [] ["1"] [bp "400"]).
Proof.
  exact (proj1 (@no_question_below_two_matches locations context
                  "spec.py:20" (world ["1"]))
               (BreakCommand.mkMatch p2 ("spec.py", 20%Z) 400) eq_refl).
Defined.

Lemma break_on_first_property_witness :
  Py.lower (name p1) = Py.lower "foo.P_one"
  /\ resolved MoreFake.context "foo.P_one" = Some p1.
Proof.
  split; [reflexivity|].
  apply (@break_on_first_property locations MoreFake.context "foo.P_one"
           [MoreFake.special] [p2; MoreFake.p1_shout] p1);
    [reflexivity|reflexivity|].
  intros p' [<-|[]]. discriminate.
Defined.

Lemma state_defaults_witness :
  blank "  " = true
  /\ StateCommand.invoke context "  "
     = StatePrinter.run (StatePrinter.init context true false None).
Proof.
  split; [reflexivity|].
  exact (@state_defaults locations utils gdb context "  "
           (or_introl eq_refl)).
Defined.

Lemma listing_aligned_witness :
  (1 <= 2 <= Z.of_nat (List.length MoreFake.matches))%Z
  /\ String.length
       (Py.rjust
          (String.length
             (BreakCommand.idx_fmt (Z.of_nat (List.length MoreFake.matches))))
          (BreakCommand.idx_fmt 2))
     = String.length
         (BreakCommand.idx_fmt (Z.of_nat (List.length MoreFake.matches))).
Proof.
  assert (Hi : (1 <= 2 <= Z.of_nat (List.length MoreFake.matches))%Z)
    by (vm_compute; split; discriminate).
  split; [exact Hi|].
  exact (proj1 (@listing_aligned locations MoreFake.matches 2%Z Hi)).
Defined.
End MoreWitnesses.
